(** * AI-Resume-Analyzer frontend: upload and progress-tracking logic

    A shallow embedding of the two components that hold the upload logic,

    - [frontend/src/components/ui/file-upload.tsx]  (module [FileUpload]),
    - [frontend/src/components/ResumeAnalyzer.tsx]  (module [ResumeAnalyzer]),

    followed by the properties proved about them.

    Conventions of the embedding.

    - A React component is a record of its [useState]/[useRef] cells, extended
      with the part of the browser the handlers act on (live interval timers,
      pending timeouts, issued requests, shown alerts).  Every handler is a
      function from such a record to the next one.
    - An [async] handler is cut at its [await]: the part before it is one
      function, the part that runs when the promise settles is another one
      which receives the outcome of the promise.
    - [Math.random] is an input of the handler that calls it.
    - JS numbers that are integers in the source are [Z]; the others are exact
      rationals ([Q]). *)

From Stdlib Require Import ZArith QArith Qround String Ascii List Bool Lia DecimalString.
From stdpp Require Import gmap strings list.

Local Open Scope string_scope.
Local Open Scope list_scope.
Local Open Scope Z_scope.

(** The DOM [File] object, as far as the components read it. *)
Record File := mkFile { name : string; size : Z; type : string }.

(** Decimal rendering of an integer, as [Number.prototype.toString] prints an
    integral number. *)
Definition show_Z (z : Z) : string := NilZero.string_of_int (Z.to_int z).

(** The values [Math.random] can return. *)
Definition is_random (rnd : Q) : Prop := (0 <= rnd /\ rnd < 1)%Q.

(* ===================================================================== *)
(** * file-upload.tsx *)
(* ===================================================================== *)
Module FileUpload.

(** ** formatFileSize *)

Definition k : Z := 1024.

Definition sizes : list string := ["Bytes"; "KB"; "MB"; "GB"].

(** [Math.floor(Math.log(bytes) / Math.log(k))] for [bytes > 0], with the
    logarithms taken exactly: the integer logarithm in base 1024, that is
    [floor (log2 bytes) / 10].  (On the powers of two [2^10] and [2^20] the
    quotient of the two doubles is the integer itself, the one logarithm
    being the other one doubled.)  The doubles of the code follow this value
    throughout the range of the four units, sizes below 1024^4.  Far beyond
    it they can part from it: just under 2^50 (at 2^50 - 3 .. 2^50 - 1) the
    quotient rounds up to 5 where the exact index is 4. *)
Definition unit_index (bytes : Z) : Z := Z.log2 bytes / 10.

(** [(bytes / Math.pow(k, i)).toFixed(2)] rounds the quotient to the nearest
    multiple of 1/100, ties upwards; [toFixed_hundredths] is that multiple's
    numerator.  The quotient itself is exact: it is a division by a power of
    two. *)
Definition toFixed_hundredths (bytes i : Z) : Z :=
  (200 * bytes + k ^ i) / (2 * k ^ i).

(** [parseFloat] of a string with two decimals, printed back by the string
    concatenation: trailing zeros of the fraction are not printed, and neither
    is the point when no fractional digit remains. *)
Definition show_hundredths (n : Z) : string :=
  let whole := n / 100 in
  let frac := n mod 100 in
  if frac =? 0 then show_Z whole
  else if frac mod 10 =? 0 then show_Z whole +:+ "." +:+ show_Z (frac / 10)
  else show_Z whole +:+ "." +:+ show_Z (frac / 10) +:+ show_Z (frac mod 10).

(** [sizes[i]] printed by string concatenation: an index outside the array
    reads [undefined]. *)
Definition sizes_at (i : Z) : string :=
  match sizes !! Z.to_nat i with
  | Some u => u
  | None => "undefined"
  end.

Definition formatFileSize (bytes : Z) : string :=
  if bytes =? 0 then "0 Bytes"
  else if bytes <? 0 then "NaN undefined"
  else
    let i := unit_index bytes in
    show_hundredths (toFixed_hundredths bytes i) +:+ " " +:+ sizes_at i.

(** ** The component: state cells and handlers *)

Record FileUploadProps := mkProps {
  maxSize : Z;             (* in bytes *)
  accept : list string;
  disabled : bool }.

Definition default_props : FileUploadProps :=
  {| maxSize := 10 * 1024 * 1024; accept := [".pdf"]; disabled := false |}.

Inductive UploadStatus := idle | uploading | success | error.

Definition is_uploading (s : UploadStatus) : bool :=
  match s with uploading => true | _ => false end.

(** What react-dropzone hands to [onDrop] for a file it refused. *)
Record FileError := mkFileError { code : string; message : string }.
Record FileRejection := mkRejection { file : File; errors : list FileError }.

(** The four [useState] cells, the interval timers the component has started
    and not cleared (each with the variables its callback closes over: the
    local [progress] and the [file]), and the calls made to the two callback
    props. *)
Record State := mkState {
  selectedFile : option File;
  uploadProgress : Q;
  uploadStatus : UploadStatus;
  errorMessage : string;
  intervals : gmap nat (Q * File);
  next_interval : nat;
  onFileSelect_calls : list File;
  onFileRemove_calls : nat }.

Definition init : State :=
  {| selectedFile := None; uploadProgress := 0%Q; uploadStatus := idle;
     errorMessage := ""; intervals := ∅; next_interval := 1%nat;
     onFileSelect_calls := []; onFileRemove_calls := 0%nat |}.

Definition has_code (c : string) (errs : list FileError) : bool :=
  existsb (fun e => String.eqb (code e) c) errs.

Section Handlers.

(** [Number.prototype.toString] on a number that need not be integral; the
    handlers only pass it on to a template string. *)
Variable Number_toString : Q -> string.

Variable props : FileUploadProps.

(** The message [onDrop] stores for a refused file. *)
Definition rejection_message (rejection : FileRejection) : string :=
  if has_code "file-too-large" (errors rejection) then
    "File is too large. Maximum size is "
      +:+ Number_toString (inject_Z (maxSize props) / 1024 / 1024)%Q +:+ "MB"
  else if has_code "file-invalid-type" (errors rejection) then
    "Invalid file type. Please upload a PDF file."
  else
    "File upload failed. Please try again.".

Definition onDrop (acceptedFiles : list File) (rejectedFiles : list FileRejection)
    (st : State) : State :=
  match rejectedFiles with
  | rejection :: _ =>
      {| selectedFile := selectedFile st;
         uploadProgress := uploadProgress st;
         uploadStatus := error;
         errorMessage := rejection_message rejection;
         intervals := intervals st;
         next_interval := next_interval st;
         onFileSelect_calls := onFileSelect_calls st;
         onFileRemove_calls := onFileRemove_calls st |}
  | [] =>
      match acceptedFiles with
      | file :: _ =>
          (* let progress = 0; const interval = setInterval(..., 200) *)
          {| selectedFile := Some file;
             uploadProgress := uploadProgress st;
             uploadStatus := uploading;
             errorMessage := "";
             intervals := <[next_interval st := (0%Q, file)]> (intervals st);
             next_interval := S (next_interval st);
             onFileSelect_calls := onFileSelect_calls st;
             onFileRemove_calls := onFileRemove_calls st |}
      | [] => st
      end
  end.

(** The dropzone is rendered only while no file is selected, and
    [useDropzone] is given [disabled: disabled || uploadStatus === 'uploading']. *)
Definition drop (acceptedFiles : list File) (rejectedFiles : list FileRejection)
    (st : State) : State :=
  match selectedFile st with
  | Some _ => st
  | None =>
      if disabled props || is_uploading (uploadStatus st) then st
      else onDrop acceptedFiles rejectedFiles st
  end.

End Handlers.

(** One firing of the interval [id] started by [onDrop]; [rnd] is the value of
    [Math.random()], in [0, 1). *)
Definition tick (id : nat) (rnd : Q) (st : State) : State :=
  match intervals st !! id with
  | None => st
  | Some (progress, file) =>
      let progress := (progress + rnd * 30)%Q in
      if Qle_bool 100 progress then
        {| selectedFile := selectedFile st;
           uploadProgress := 100%Q;
           uploadStatus := success;
           errorMessage := errorMessage st;
           intervals := delete id (intervals st);
           next_interval := next_interval st;
           onFileSelect_calls := onFileSelect_calls st ++ [file];
           onFileRemove_calls := onFileRemove_calls st |}
      else
        {| selectedFile := selectedFile st;
           uploadProgress := progress;
           uploadStatus := uploadStatus st;
           errorMessage := errorMessage st;
           intervals := <[id := (progress, file)]> (intervals st);
           next_interval := next_interval st;
           onFileSelect_calls := onFileSelect_calls st;
           onFileRemove_calls := onFileRemove_calls st |}
  end.

Definition removeFile (st : State) : State :=
  {| selectedFile := None;
     uploadProgress := 0%Q;
     uploadStatus := idle;
     errorMessage := "";
     intervals := intervals st;
     next_interval := next_interval st;
     onFileSelect_calls := onFileSelect_calls st;
     onFileRemove_calls := S (onFileRemove_calls st) |}.

(** The remove button exists only in the card of a selected file and carries
    [disabled={uploadStatus === 'uploading'}]. *)
Definition clickRemove (st : State) : State :=
  match selectedFile st with
  | None => st
  | Some _ => if is_uploading (uploadStatus st) then st else removeFile st
  end.

(** ** The specification's view of a rejection

    The specification names the reasons of a rejection ([TooLarge],
    [InvalidType], [Other]) and orders them: size first, then type, else
    [Other].  [spec_reason] and [spec_message] follow its words; they are
    compared with [rejection_message] below. *)
Inductive Reason := TooLarge | InvalidType | Other.

Definition spec_reason (errs : list FileError) : Reason :=
  if has_code "file-too-large" errs then TooLarge
  else if has_code "file-invalid-type" errs then InvalidType
  else Other.

Definition spec_message (limit : string) (r : Reason) : string :=
  match r with
  | TooLarge => "File is too large. Maximum size is " +:+ limit +:+ "MB"
  | InvalidType => "Invalid file type. Please upload a PDF file."
  | Other => "File upload failed. Please try again."
  end.

End FileUpload.

(* ===================================================================== *)
(** * ResumeAnalyzer.tsx *)
(* ===================================================================== *)
Module ResumeAnalyzer.

(** A JSON value, as [response.json()] delivers it.  A number is the rational
    its double stands for; an object lists its members in the order of the
    text. *)
#[warnings="-register-all"] Inductive Json :=
| JNull
| JBool (b : bool)
| JNum (q : Q)
| JStr (s : string)
| JArr (items : list Json)
| JObj (members : list (string * Json)).

Record AnalysisObject := mkAnalysisObject {
  strengths : list string;
  improvements : list string;
  matching_qualifications : string;
  missing_requirements : string;
  final_assessment : string }.

Record AnalysisResult := mkAnalysisResult {
  parsed : Json;                  (* [any] in the source *)
  analysis : AnalysisObject;
  score : Z;
  suggestions : string;
  roadmap : string }.

Definition profiles : list string :=
  ["Frontend Developer"; "Backend Developer"; "Full Stack Developer";
   "Data Scientist"; "Machine Learning Engineer"; "Product Manager";
   "UI/UX Designer"].

Definition getScoreColor (score : Z) : string :=
  if 80 <=? score then "text-green-400"
  else if 60 <=? score then "text-yellow-400"
  else "text-red-400".

Inductive JobMode := description | profile.

(** The multipart body handed to [fetch]. *)
Record FormData := mkFormData { resume : File; job_description : string }.

(** ** The network, as the handler sees it *)

(** The two bodies the endpoint is documented to send: [{ "error": e }] (or
    [{}] when there is no message) and a well-formed result. *)
Definition ErrorJson (error : option string) : Json :=
  JObj match error with
       | Some e => [("error", JStr e)]
       | None => []
       end.

Definition ResultJson (data : AnalysisResult) : Json :=
  JObj
    [("parsed", parsed data);
     ("analysis",
      JObj
        [("strengths", JArr (map JStr (strengths (analysis data))));
         ("improvements", JArr (map JStr (improvements (analysis data))));
         ("matching_qualifications", JStr (matching_qualifications (analysis data)));
         ("missing_requirements", JStr (missing_requirements (analysis data)));
         ("final_assessment", JStr (final_assessment (analysis data)))]);
     ("score", JNum (inject_Z (score data)));
     ("suggestions", JStr (suggestions data));
     ("roadmap", JStr (roadmap data))].

(** The member of an object under a key; of two members with the same key
    [JSON.parse] keeps the later one. *)
Fixpoint member (key : string) (members : list (string * Json)) : option Json :=
  match members with
  | [] => None
  | (k, v) :: rest =>
      match member key rest with
      | Some w => Some w
      | None => if String.eqb k key then Some v else None
      end
  end.

(** [errorData.error] for a body that is not [null]: [None] is [undefined].
    Only an object can have the property; booleans, numbers, strings and
    arrays have none of that name. *)
Definition get_error (errorData : Json) : option Json :=
  match errorData with
  | JObj members => member "error" members
  | _ => None
  end.

(** Truthiness, as [||] tests it. *)
Definition truthy (v : Json) : bool :=
  match v with
  | JNull => false
  | JBool b => b
  | JNum q => negb (Qeq_bool q 0)
  | JStr s => negb (String.eqb s "")
  | JArr _ => true
  | JObj _ => true
  end.

(** What the embedding leaves to the JavaScript engine: the text of a number
    that need not be integral, and the message of the [TypeError] raised when
    a property of [null] is read. *)
Record Runtime := mkRuntime {
  Number_toString : Q -> string;
  null_property_message : string }.

(** [response.json()] either rejects, with an error whose [message] is given,
    or resolves to the parsed body. *)
Record Response := mkResponse { ok : bool; json : string + Json }.

(** [fetch] either rejects (no response: the [message] of the error the
    browser raised) or resolves to a response. *)
Inductive FetchOutcome :=
| Rejects (message : string)
| Resolves (response : Response).

(** ** State *)

(** The [useState] cells, the [intervalRef] cell, and the browser side: the
    interval timers alive, the pending [setTimeout] calls (their delays; they
    all carry the callback [setIsLoading(false)]), the requests issued and the
    alerts shown, oldest first. *)
Record State := mkState {
  file : option File;
  jobMode : JobMode;
  selectedProfile : string;
  jobDescription : string;
  isAnalyzing : bool;
  analysisResult : option Json;
  isLoading : bool;
  progress : Z;
  intervalRef : option nat;
  intervals : gset nat;
  next_interval : nat;
  timeouts : list Z;
  requests : list FormData;
  alerts : list string }.

Definition init : State :=
  {| file := None; jobMode := profile; selectedProfile := "Frontend Developer";
     jobDescription := ""; isAnalyzing := false; analysisResult := None;
     isLoading := false; progress := 0; intervalRef := None;
     intervals := ∅; next_interval := 1%nat; timeouts := [];
     requests := []; alerts := [] |}.

(** ** Browser primitives *)

Definition alert (msg : string) (st : State) : State :=
  {| file := file st; jobMode := jobMode st; selectedProfile := selectedProfile st;
     jobDescription := jobDescription st; isAnalyzing := isAnalyzing st;
     analysisResult := analysisResult st; isLoading := isLoading st;
     progress := progress st; intervalRef := intervalRef st;
     intervals := intervals st; next_interval := next_interval st;
     timeouts := timeouts st; requests := requests st;
     alerts := alerts st ++ [msg] |}.

(** [clearInterval(intervalRef.current)]; clearing [null] or a dead timer does
    nothing. *)
Definition clearInterval (ref : option nat) (st : State) : State :=
  {| file := file st; jobMode := jobMode st; selectedProfile := selectedProfile st;
     jobDescription := jobDescription st; isAnalyzing := isAnalyzing st;
     analysisResult := analysisResult st; isLoading := isLoading st;
     progress := progress st; intervalRef := intervalRef st;
     intervals := match ref with
                  | Some id => intervals st ∖ {[id]}
                  | None => intervals st
                  end;
     next_interval := next_interval st;
     timeouts := timeouts st; requests := requests st; alerts := alerts st |}.

Definition setTimeout (delay : Z) (st : State) : State :=
  {| file := file st; jobMode := jobMode st; selectedProfile := selectedProfile st;
     jobDescription := jobDescription st; isAnalyzing := isAnalyzing st;
     analysisResult := analysisResult st; isLoading := isLoading st;
     progress := progress st; intervalRef := intervalRef st;
     intervals := intervals st; next_interval := next_interval st;
     timeouts := timeouts st ++ [delay]; requests := requests st;
     alerts := alerts st |}.

(** ** State setters *)

Definition setFile (f : File) (st : State) : State :=
  {| file := Some f; jobMode := jobMode st; selectedProfile := selectedProfile st;
     jobDescription := jobDescription st; isAnalyzing := isAnalyzing st;
     analysisResult := analysisResult st; isLoading := isLoading st;
     progress := progress st; intervalRef := intervalRef st;
     intervals := intervals st; next_interval := next_interval st;
     timeouts := timeouts st; requests := requests st; alerts := alerts st |}.

Definition setIsAnalyzing (b : bool) (st : State) : State :=
  {| file := file st; jobMode := jobMode st; selectedProfile := selectedProfile st;
     jobDescription := jobDescription st; isAnalyzing := b;
     analysisResult := analysisResult st; isLoading := isLoading st;
     progress := progress st; intervalRef := intervalRef st;
     intervals := intervals st; next_interval := next_interval st;
     timeouts := timeouts st; requests := requests st; alerts := alerts st |}.

Definition setAnalysisResult (r : option Json) (st : State) : State :=
  {| file := file st; jobMode := jobMode st; selectedProfile := selectedProfile st;
     jobDescription := jobDescription st; isAnalyzing := isAnalyzing st;
     analysisResult := r; isLoading := isLoading st;
     progress := progress st; intervalRef := intervalRef st;
     intervals := intervals st; next_interval := next_interval st;
     timeouts := timeouts st; requests := requests st; alerts := alerts st |}.

Definition setIsLoading (b : bool) (st : State) : State :=
  {| file := file st; jobMode := jobMode st; selectedProfile := selectedProfile st;
     jobDescription := jobDescription st; isAnalyzing := isAnalyzing st;
     analysisResult := analysisResult st; isLoading := b;
     progress := progress st; intervalRef := intervalRef st;
     intervals := intervals st; next_interval := next_interval st;
     timeouts := timeouts st; requests := requests st; alerts := alerts st |}.

Definition setProgress (p : Z) (st : State) : State :=
  {| file := file st; jobMode := jobMode st; selectedProfile := selectedProfile st;
     jobDescription := jobDescription st; isAnalyzing := isAnalyzing st;
     analysisResult := analysisResult st; isLoading := isLoading st;
     progress := p; intervalRef := intervalRef st;
     intervals := intervals st; next_interval := next_interval st;
     timeouts := timeouts st; requests := requests st; alerts := alerts st |}.

(** [intervalRef.current = setInterval(..., 2000)]: a fresh timer is started
    and the cell is overwritten with its id. *)
Definition startInterval (st : State) : State :=
  {| file := file st; jobMode := jobMode st; selectedProfile := selectedProfile st;
     jobDescription := jobDescription st; isAnalyzing := isAnalyzing st;
     analysisResult := analysisResult st; isLoading := isLoading st;
     progress := progress st; intervalRef := Some (next_interval st);
     intervals := {[next_interval st]} ∪ intervals st;
     next_interval := S (next_interval st);
     timeouts := timeouts st; requests := requests st; alerts := alerts st |}.

Definition fetch (body : FormData) (st : State) : State :=
  {| file := file st; jobMode := jobMode st; selectedProfile := selectedProfile st;
     jobDescription := jobDescription st; isAnalyzing := isAnalyzing st;
     analysisResult := analysisResult st; isLoading := isLoading st;
     progress := progress st; intervalRef := intervalRef st;
     intervals := intervals st; next_interval := next_interval st;
     timeouts := timeouts st; requests := requests st ++ [body];
     alerts := alerts st |}.

(** The timeout at the head of the queue leaves it when it fires. *)
Definition popTimeout (st : State) : State :=
  {| file := file st; jobMode := jobMode st; selectedProfile := selectedProfile st;
     jobDescription := jobDescription st; isAnalyzing := isAnalyzing st;
     analysisResult := analysisResult st; isLoading := isLoading st;
     progress := progress st; intervalRef := intervalRef st;
     intervals := intervals st; next_interval := next_interval st;
     timeouts := tail (timeouts st); requests := requests st;
     alerts := alerts st |}.

(** ** Handlers *)

(** [e.target.files?.[0]] is the head of the chosen files, when there is one. *)
Definition handleFileChange (files : list File) (st : State) : State :=
  match files with
  | f :: _ => setFile f st
  | [] => st
  end.

(** [startAnalysis], up to its [await fetch(...)]. *)
Definition startAnalysis (st : State) : State :=
  match file st with
  | None => alert "Please upload a resume first." st
  | Some f =>
      let st := setIsAnalyzing true st in
      let st := setAnalysisResult None st in
      let st := setIsLoading true st in
      let st := setProgress 0 st in
      let description :=
        match jobMode st with
        | profile => selectedProfile st
        | description => jobDescription st
        end in
      let formData := {| resume := f; job_description := description |} in
      let st := startInterval st in
      fetch formData st
  end.

(** The button carries [disabled={isAnalyzing || !file}]. *)
Definition button_disabled (st : State) : bool :=
  isAnalyzing st || match file st with Some _ => false | None => true end.

Definition clickStart (st : State) : State :=
  if button_disabled st then st else startAnalysis st.

(** One firing of the interval [id]; [rnd] is the value of [Math.random()],
    in [0, 1).  The callback is [setProgress(prev => ...)]. *)
Definition tick (id : nat) (rnd : Q) (st : State) : State :=
  if decide (id ∈ intervals st) then
    let prev := progress st in
    if 95 <=? prev then
      setProgress 95 (clearInterval (intervalRef st) st)
    else
      setProgress (prev + (if prev <? 95 then Qfloor (rnd * 10) else 1)) st
  else st.

Section Outcome.

Variable js : Runtime.

(** [ToString], which [new Error(message)] applies to its argument.  An array
    is its elements joined by commas, [null] elements counting as empty; an
    object is ["[object Object]"]. *)
Fixpoint ToString (v : Json) : string :=
  match v with
  | JNull => "null"
  | JBool true => "true"
  | JBool false => "false"
  | JNum q => Number_toString js q
  | JStr s => s
  | JArr items =>
      (fix join (l : list Json) : string :=
         match l with
         | [] => ""
         | x :: rest =>
             let shown := match x with JNull => "" | _ => ToString x end in
             match rest with
             | [] => shown
             | _ :: _ => shown +:+ "," +:+ join rest
             end
         end) items
  | JObj _ => "[object Object]"
  end.

(** The message of [new Error(errorData.error || "Failed to analyze resume")],
    given [errorData.error]: a truthy value is kept and converted to a
    string, anything falsy gives way to the fallback. *)
Definition error_or_default (e : option Json) : string :=
  match e with
  | Some v => if truthy v then ToString v else "Failed to analyze resume"
  | None => "Failed to analyze resume"
  end.

(** The [try] block from the point where [fetch] settles: [inl message] when
    it throws an error with that message, [inr data] when it reaches
    [setAnalysisResult(data)].  Reading [errorData.error] of a [null] body
    throws. *)
Definition try_block (o : FetchOutcome) : string + Json :=
  match o with
  | Rejects msg => inl msg
  | Resolves response =>
      if negb (ok response) then
        match json response with
        | inl msg => inl msg
        | inr JNull => inl (null_property_message js)
        | inr errorData => inl (error_or_default (get_error errorData))
        end
      else json response
  end.

(** The value a state cell of type [AnalysisResult | null] holds after
    [setAnalysisResult(data)]: the JSON [null] is the [null] of the cell. *)
Definition cell (data : Json) : option Json :=
  match data with
  | JNull => None
  | _ => Some data
  end.

(** The rest of [startAnalysis], run when [fetch] settles with outcome [o]. *)
Definition settled (o : FetchOutcome) (st : State) : State :=
  let st :=
    match try_block o with
    | inr data =>
        let st := setAnalysisResult (cell data) st in
        let st := clearInterval (intervalRef st) st in
        let st := setProgress 100 st in
        setTimeout 500 st
    | inl msg =>
        let st := alert ("Error: " +:+ msg) st in
        let st := clearInterval (intervalRef st) st in
        let st := setIsLoading false st in
        setProgress 0 st
    end in
  setIsAnalyzing false st.

End Outcome.

(** The callback of [setTimeout(() => { setIsLoading(false) }, 500)]. *)
Definition timeout_fires (st : State) : State :=
  match timeouts st with
  | [] => st
  | _ :: _ => setIsLoading false (popTimeout st)
  end.

(** A run of interval firings, oldest first. *)
Definition ticks (id : nat) (rnds : list Q) (st : State) : State :=
  fold_left (fun st rnd => tick id rnd st) rnds st.

End ResumeAnalyzer.

(* ===================================================================== *)
(** * Sample runs

    The states and outcomes the examples and the concrete statements below
    are evaluated on. *)
(* ===================================================================== *)
Module RA := ResumeAnalyzer.

Module FU := FileUpload.

(** A run used in the examples: a 2 MB PDF is chosen and the button clicked. *)
Definition cv : File := mkFile "cv.pdf" 2097152 "application/pdf".
Definition chosen : RA.State := RA.handleFileChange [cv] RA.init.
Definition submitted : RA.State := RA.clickStart chosen.

(** Draws that take a fresh submission to 94, and then one more. *)
Definition draws_to_94 : list Q :=
  [9 # 10; 9 # 10; 9 # 10; 9 # 10; 9 # 10; 9 # 10; 9 # 10; 9 # 10; 9 # 10;
   9 # 10; 4 # 10]%Q.

Definition at_94 : RA.State := RA.ticks 1 draws_to_94 submitted.

Definition at_100 : RA.State := RA.tick 1 (6 # 10) at_94.

Definition in_flight : RA.State := RA.tick 1 (5 # 10) submitted.

(** The timers alive once [clearInterval(intervalRef.current)] has run. *)
Definition cleared (st : RA.State) : gset nat :=
  match RA.intervalRef st with
  | Some id => RA.intervals st ∖ {[id]}
  | None => RA.intervals st
  end.


(** Scenario C of the specification: a 500 with [{ "error": "model unavailable" }]. *)
Definition model_unavailable : RA.FetchOutcome :=
  RA.Resolves (RA.mkResponse false (inr (RA.ErrorJson (Some "model unavailable")))).

(** Scenario A of the specification: a 200 with score 87. *)
Definition score_87 : RA.AnalysisResult :=
  {| RA.parsed := RA.JObj [];
     RA.analysis :=
       {| RA.strengths := ["React"; "TypeScript"];
          RA.improvements := ["Testing"];
          RA.matching_qualifications := "Three years of frontend work";
          RA.missing_requirements := "GraphQL";
          RA.final_assessment := "Strong match" |};
     RA.score := 87;
     RA.suggestions := "## Suggestions";
     RA.roadmap := "## Roadmap" |}.

Definition ok_87 : RA.Response := RA.mkResponse true (inr (RA.ResultJson score_87)).

(** A rendering of numbers for the examples: right on integral values, which
    is all the examples pass to it. *)
Definition show_integral (q : Q) : string := show_Z (Qfloor q).

(** An engine for the examples: the message is the one V8 gives. *)
Definition engine : RA.Runtime :=
  {| RA.Number_toString := show_integral;
     RA.null_property_message := "Cannot read properties of null (reading 'error')" |}.

Definition dropped : FU.State := FU.drop show_integral FU.default_props [cv] [] FU.init.

(* ===================================================================== *)
(** * The components under the events of their UI

    What can happen to a mounted component: the handlers are reached through
    the elements that are rendered and enabled, the timers fire, and a
    request that was issued settles once. *)
(* ===================================================================== *)
Module Widget.

(** The events of the upload widget. *)
Inductive Event :=
| Drop (acceptedFiles : list File) (rejectedFiles : list FU.FileRejection)
| Tick (id : nat) (rnd : Q)
| ClickRemove.

Definition step (Number_toString : Q -> string) (props : FU.FileUploadProps)
    (e : Event) (st : FU.State) : FU.State :=
  match e with
  | Drop acceptedFiles rejectedFiles =>
      FU.drop Number_toString props acceptedFiles rejectedFiles st
  | Tick id rnd => FU.tick id rnd st
  | ClickRemove => FU.clickRemove st
  end.

Definition run (Number_toString : Q -> string) (props : FU.FileUploadProps)
    (events : list Event) (st : FU.State) : FU.State :=
  fold_left (fun st e => step Number_toString props e st) events st.

(** The only constraint on an event is the range of [Math.random]. *)
Definition valid (e : Event) : Prop :=
  match e with
  | Tick _ rnd => is_random rnd
  | _ => True
  end.

(** What holds of the widget between two events. *)
Record consistent (st : FU.State) : Prop := mkConsistent {
  live_timer :
    forall (id : nat) (p : Q) (f : File),
      FU.intervals st !! id = Some (p, f) ->
      FU.uploadStatus st = FU.uploading /\ FU.selectedFile st = Some f /\
      FU.uploadProgress st = p /\ (0 <= p)%Q /\ (p < 100)%Q /\
      S id = FU.next_interval st;
  uploading_timer :
    FU.uploadStatus st = FU.uploading ->
    exists (p : Q) (f : File),
      FU.intervals st !! pred (FU.next_interval st) = Some (p, f);
  nothing_selected :
    FU.selectedFile st = None <->
    FU.uploadStatus st = FU.idle \/ FU.uploadStatus st = FU.error;
  nothing_selected_progress :
    FU.selectedFile st = None -> FU.uploadProgress st = 0%Q;
  succeeded :
    FU.uploadStatus st = FU.success ->
    exists f : File,
      FU.selectedFile st = Some f /\ last (FU.onFileSelect_calls st) = Some f /\
      FU.uploadProgress st = 100%Q }.

End Widget.

(** The error line of the widget: the JSX renders
    [uploadStatus === 'error' && <span>{errorMessage}</span>] inside the card
    of the selected file, which replaces the dropzone when [selectedFile] is
    not null. *)
Definition error_line (st : FU.State) : option string :=
  match FU.selectedFile st with
  | None => None
  | Some _ =>
      match FU.uploadStatus st with
      | FU.error => Some (FU.errorMessage st)
      | _ => None
      end
  end.

(** A sample session of the widget: a refused drop, an accepted one, two
    firings of its timer. *)
Definition widget_session : list Widget.Event :=
  [Widget.Drop [] [FU.mkRejection cv [FU.mkFileError "file-too-large" "too large"]];
   Widget.Drop [cv] [];
   Widget.Tick 1 (1 # 2);
   Widget.Tick 1 (1 # 3)].

Module Page.

(** The events of the analyzer page. *)
Inductive Event :=
| FileChange (files : list File)
| ClickStart
| Tick (id : nat) (rnd : Q)
| Settle (o : RA.FetchOutcome)
| TimeoutFires.

(** The page together with the number of requests that have settled. *)
Record Run := mkRun { page : RA.State; answered : nat }.

Definition start : Run := {| page := RA.init; answered := 0 |}.

(** The requests issued and not settled yet. *)
Definition outstanding (r : Run) : nat :=
  (length (RA.requests (page r)) - answered r)%nat.

(** A request settles only if one is outstanding; the continuation of
    [startAnalysis] runs then. *)
Definition step (js : RA.Runtime) (e : Event) (r : Run) : Run :=
  match e with
  | FileChange files =>
      {| page := RA.handleFileChange files (page r); answered := answered r |}
  | ClickStart =>
      {| page := RA.clickStart (page r); answered := answered r |}
  | Tick id rnd =>
      {| page := RA.tick id rnd (page r); answered := answered r |}
  | Settle o =>
      if (answered r <? length (RA.requests (page r)))%nat then
        {| page := RA.settled js o (page r); answered := S (answered r) |}
      else r
  | TimeoutFires =>
      {| page := RA.timeout_fires (page r); answered := answered r |}
  end.

Definition run (js : RA.Runtime) (events : list Event) (r : Run) : Run :=
  fold_left (fun r e => step js e r) events r.

Definition valid (e : Event) : Prop :=
  match e with
  | Tick _ rnd => is_random rnd
  | _ => True
  end.

(** What holds of the page between two events. *)
Record consistent (r : Run) : Prop := mkConsistent {
  one_outstanding :
    length (RA.requests (page r)) =
      (answered r + if RA.isAnalyzing (page r) then 1 else 0)%nat;
  timer_in_ref :
    forall id : nat,
      id ∈ RA.intervals (page r) ->
      RA.intervalRef (page r) = Some id /\ RA.isAnalyzing (page r) = true;
  progress_range : 0 <= RA.progress (page r) <= 103;
  analyzing_state :
    RA.isAnalyzing (page r) = true ->
    RA.analysisResult (page r) = None /\ RA.file (page r) <> None;
  idle_state :
    RA.isAnalyzing (page r) = false ->
    (RA.progress (page r) = 0 /\ RA.analysisResult (page r) = None) \/
    RA.progress (page r) = 100 }.

End Page.

(** A sample session of the page: a file is chosen, the analysis started,
    the timer fires, the button is clicked again, the request fails and the
    analysis is started once more. *)
Definition page_session : list Page.Event :=
  [Page.FileChange [cv]; Page.ClickStart; Page.Tick 1 (5 # 10); Page.ClickStart;
   Page.Settle model_unavailable; Page.ClickStart].

(* ===================================================================== *)
(** * formatFileSize on a few sizes *)
(* ===================================================================== *)

Example formatFileSize_1536 : FileUpload.formatFileSize 1536 = "1.5 KB".
Proof. reflexivity. Qed.

Example formatFileSize_1234567 : FileUpload.formatFileSize 1234567 = "1.18 MB".
Proof. reflexivity. Qed.

Example formatFileSize_1tb : FileUpload.formatFileSize (1024 ^ 4) = "1 undefined".
Proof. reflexivity. Qed.

(* ===================================================================== *)
(** * Properties of ResumeAnalyzer.tsx: the progress timer *)
(* ===================================================================== *)

Example submitted_state :
  RA.isAnalyzing submitted = true /\ RA.isLoading submitted = true /\
  RA.progress submitted = 0 /\ RA.intervalRef submitted = Some 1%nat /\
  RA.requests submitted = [RA.mkFormData cv "Frontend Developer"].
Proof. repeat split. Qed.

Example tick_example : RA.progress (RA.tick 1 (7 # 10) submitted) = 7.
Proof. vm_compute. reflexivity. Qed.

(** [Math.floor(Math.random() * 10)] is one of 0, ..., 9. *)
Lemma floor_random_digit (rnd : Q) :
  is_random rnd -> 0 <= Qfloor (rnd * 10) <= 9.
Proof.
  intros [Hlo Hhi]. split.
  - change 0 with (Qfloor 0). apply Qfloor_resp_le.
    apply Qmult_le_0_compat; [exact Hlo | discriminate].
  - assert (Hlt : (inject_Z (Qfloor (rnd * 10)) < inject_Z 10)%Q).
    { eapply Qle_lt_trans; [apply Qfloor_le |].
      change (inject_Z 10) with (1 * 10)%Q.
      apply Qmult_lt_compat_r; [reflexivity | exact Hhi]. }
    rewrite <- Zlt_Qlt in Hlt. lia.
Qed.

(** What one firing does to [progress], read off the updater. *)
Lemma tick_progress (id : nat) (rnd : Q) (st : RA.State) :
  RA.progress (RA.tick id rnd st) =
    if decide (id ∈ RA.intervals st) then
      if 95 <=? RA.progress st then 95
      else RA.progress st + Qfloor (rnd * 10)
    else RA.progress st.
Proof.
  unfold RA.tick. destruct (decide (id ∈ RA.intervals st)); [| reflexivity].
  destruct (95 <=? RA.progress st) eqn:Hcap; simpl; [reflexivity |].
  apply Z.leb_gt in Hcap. apply Z.ltb_lt in Hcap. rewrite Hcap. reflexivity.
Qed.

(** The bound the updater does keep: the test [prev >= 95] is made before the
    addition, so a firing can leave up to [94 + 9]. *)
Lemma tick_progress_range (id : nat) (rnd : Q) (st : RA.State) :
  is_random rnd ->
  0 <= RA.progress st <= 103 ->
  0 <= RA.progress (RA.tick id rnd st) <= 103.
Proof.
  intros Hrnd Hp. apply floor_random_digit in Hrnd.
  rewrite tick_progress.
  destruct (decide (id ∈ RA.intervals st)); [| lia].
  destruct (95 <=? RA.progress st) eqn:Hcap; [lia |].
  apply Z.leb_gt in Hcap. lia.
Qed.

Lemma ticks_progress_range (id : nat) (rnds : list Q) :
  forall st : RA.State,
    Forall is_random rnds ->
    0 <= RA.progress st <= 103 ->
    0 <= RA.progress (RA.ticks id rnds st) <= 103.
Proof.
  induction rnds as [| rnd rnds IH]; intros st Hall Hp; [exact Hp |].
  inversion Hall as [| ? ? Hrnd Hrest]; subst.
  apply (IH (RA.tick id rnd st) Hrest).
  apply tick_progress_range; assumption.
Qed.

(** X16.  As long as [progress] is at most 95, a firing with a valid draw
    never lowers it. *)
Lemma tick_monotone_up_to_cap (id : nat) (rnd : Q) (st : RA.State) :
  is_random rnd ->
  RA.progress st <= 95 ->
  RA.progress st <= RA.progress (RA.tick id rnd st).
Proof.
  intros Hrnd Hp. apply floor_random_digit in Hrnd.
  rewrite tick_progress.
  destruct (decide (id ∈ RA.intervals st)); [| lia].
  destruct (95 <=? RA.progress st) eqn:Hcap; [| lia].
  apply Z.leb_le in Hcap. lia.
Qed.

(** ... and above it the next firing of a live timer writes 95. *)
Lemma tick_above_cap (id : nat) (rnd : Q) (st : RA.State) :
  id ∈ RA.intervals st ->
  95 < RA.progress st ->
  RA.progress (RA.tick id rnd st) = 95.
Proof.
  intros Hlive Hp. rewrite tick_progress.
  destruct (decide (id ∈ RA.intervals st)); [| contradiction].
  destruct (95 <=? RA.progress st) eqn:Hcap; [reflexivity |].
  apply Z.leb_gt in Hcap. lia.
Qed.

(** A firing touches [progress] and the set of live timers, nothing else. *)
Lemma tick_frame (id : nat) (rnd : Q) (st : RA.State) :
  let st' := RA.tick id rnd st in
  RA.file st' = RA.file st /\ RA.isAnalyzing st' = RA.isAnalyzing st /\
  RA.isLoading st' = RA.isLoading st /\
  RA.analysisResult st' = RA.analysisResult st /\
  RA.intervalRef st' = RA.intervalRef st /\
  RA.requests st' = RA.requests st /\ RA.alerts st' = RA.alerts st /\
  RA.timeouts st' = RA.timeouts st.
Proof.
  unfold RA.tick. destruct (decide (id ∈ RA.intervals st)); [| repeat split].
  destruct (95 <=? RA.progress st); repeat split.
Qed.

(** C1 (the code departs from the claim).  While the request of [submitted] is
    still outstanding (no outcome has been delivered: [isAnalyzing] is true
    and the timer is alive), a run of valid draws brings [progress] to 94, and
    the next firing adds its draw unclamped: with the draw 0.6 the value is
    100, with 0.9 it is 103.  The claim says the value never exceeds 95 and
    never reaches 100 before the success of the request. *)
Theorem tick_overshoots_cap :
  Forall is_random (draws_to_94 ++ [6 # 10; 9 # 10]%Q) /\
  RA.isAnalyzing at_94 = true /\
  1%nat ∈ RA.intervals at_94 /\
  RA.progress at_94 = 94 /\
  RA.progress (RA.tick 1 (6 # 10) at_94) = 100 /\
  RA.progress (RA.tick 1 (9 # 10) at_94) = 103 /\
  RA.isAnalyzing (RA.tick 1 (6 # 10) at_94) = true.
Proof.
  split.
  { repeat constructor; discriminate. }
  split; [reflexivity |].
  split; [vm_compute; reflexivity |].
  repeat split; vm_compute; reflexivity.
Qed.

(** C2 (the code departs from the claim).  In the same run the value shown
    is 100 after the twelfth firing, the request still outstanding and the
    timer alive; the thirteenth firing, whatever its draw, writes 95: the
    displayed percentage goes down by 5.  The claim says no firing lowers
    it. *)
Theorem tick_lowers_progress :
  RA.isAnalyzing at_100 = true /\
  1%nat ∈ RA.intervals at_100 /\
  RA.progress at_100 = 100 /\
  (forall rnd : Q, RA.progress (RA.tick 1 rnd at_100) = 95) /\
  (forall rnd : Q, RA.progress (RA.tick 1 rnd at_100) < RA.progress at_100).
Proof.
  assert (Hlive : 1%nat ∈ RA.intervals at_100) by (vm_compute; reflexivity).
  assert (Hp : RA.progress at_100 = 100) by (vm_compute; reflexivity).
  assert (H95 : forall rnd : Q, RA.progress (RA.tick 1 rnd at_100) = 95).
  { intros rnd. apply tick_above_cap; [exact Hlive | rewrite Hp; lia]. }
  split; [reflexivity |].
  split; [exact Hlive |].
  split; [exact Hp |].
  split; [exact H95 |].
  intros rnd. rewrite H95, Hp. lia.
Qed.

(* ===================================================================== *)
(** * Properties of ResumeAnalyzer.tsx: submission *)
(* ===================================================================== *)

(** C3, as stated, fails on [startAnalysis]: called while a submission is in
    flight it resets the progress of the running attempt, starts a second
    timer and issues a second request. *)
Lemma startAnalysis_in_flight_resubmits :
  RA.isAnalyzing in_flight = true /\
  RA.progress in_flight = 5 /\
  RA.progress (RA.startAnalysis in_flight) = 0 /\
  RA.requests (RA.startAnalysis in_flight) =
    RA.requests in_flight ++ [RA.mkFormData cv "Frontend Developer"] /\
  RA.intervalRef (RA.startAnalysis in_flight) = Some 2%nat /\
  1%nat ∈ RA.intervals (RA.startAnalysis in_flight) /\
  RA.startAnalysis in_flight <> in_flight.
Proof.
  repeat split; try (vm_compute; reflexivity).
  intros Heq. apply (f_equal RA.progress) in Heq. vm_compute in Heq. discriminate.
Qed.

(** C3, amended.  While a submission is in flight the button that calls
    [startAnalysis] is disabled: a click changes nothing, neither the state
    cells nor the timers, the requests issued or the alerts shown. *)
Theorem clickStart_in_flight_noop (st : RA.State) :
  RA.isAnalyzing st = true ->
  RA.clickStart st = st.
Proof.
  intros Hbusy. unfold RA.clickStart, RA.button_disabled.
  rewrite Hbusy. reflexivity.
Qed.

Lemma clickStart_in_flight_noop_witness :
  RA.isAnalyzing in_flight = true /\ RA.clickStart in_flight = in_flight.
Proof.
  split; [reflexivity | apply (clickStart_in_flight_noop in_flight); reflexivity].
Defined.

(** C9.  Without a file, [startAnalysis] shows the alert and returns: no
    request, no timer, no pending timeout, and the state cells keep their
    values. *)
Theorem startAnalysis_without_file (st : RA.State) :
  RA.file st = None ->
  let st' := RA.startAnalysis st in
  RA.alerts st' = RA.alerts st ++ ["Please upload a resume first."] /\
  RA.requests st' = RA.requests st /\
  RA.intervals st' = RA.intervals st /\
  RA.next_interval st' = RA.next_interval st /\
  RA.intervalRef st' = RA.intervalRef st /\
  RA.timeouts st' = RA.timeouts st /\
  RA.isAnalyzing st' = RA.isAnalyzing st /\
  RA.isLoading st' = RA.isLoading st /\
  RA.progress st' = RA.progress st /\
  RA.analysisResult st' = RA.analysisResult st /\
  RA.file st' = RA.file st.
Proof.
  intros Hfile. unfold RA.startAnalysis. rewrite Hfile. cbn.
  repeat split; assumption.
Qed.

Lemma startAnalysis_without_file_witness :
  RA.file RA.init = None /\
  RA.alerts (RA.startAnalysis RA.init) = ["Please upload a resume first."] /\
  RA.requests (RA.startAnalysis RA.init) = [] /\
  RA.progress (RA.startAnalysis RA.init) = 0.
Proof.
  split; [reflexivity |].
  pose proof (startAnalysis_without_file RA.init eq_refl) as H.
  cbv zeta in H.
  destruct H as (Ha & Hr & _ & _ & _ & _ & _ & _ & Hp & _).
  split; [exact Ha |]. split; [exact Hr | exact Hp].
Defined.

(* ===================================================================== *)
(** * Properties of ResumeAnalyzer.tsx: the outcome of the request *)
(* ===================================================================== *)

Lemma cleared_not_live (st : RA.State) (id : nat) :
  RA.intervalRef st = Some id -> id ∉ cleared st.
Proof.
  intros Href. unfold cleared. rewrite Href.
  intros Hin. apply elem_of_difference in Hin as [_ Hne].
  apply Hne. apply elem_of_singleton. reflexivity.
Qed.









(** Bodies of an error response outside the documented shape. *)
Example error_bodies :
  RA.alerts (RA.settled engine (RA.Resolves (RA.mkResponse false (inr RA.JNull))) submitted)
    = ["Error: Cannot read properties of null (reading 'error')"] /\
  RA.alerts (RA.settled engine
               (RA.Resolves (RA.mkResponse false
                               (inr (RA.JObj [("error", RA.JNum 42)])))) submitted)
    = ["Error: 42"] /\
  RA.alerts (RA.settled engine
               (RA.Resolves (RA.mkResponse false
                               (inr (RA.JObj [("error", RA.JArr [])])))) submitted)
    = ["Error: "] /\
  RA.alerts (RA.settled engine
               (RA.Resolves (RA.mkResponse false
                               (inr (RA.JObj [("error", RA.JStr "")])))) submitted)
    = ["Error: Failed to analyze resume"].
Proof. repeat split. Qed.

(** C5, as stated, fails for a 2xx response whose body does not parse:
    [response.json()] rejects inside the [try] block, and the handler ends in
    the [catch] branch, with an alert, [progress] at 0 and no result. *)
Lemma success_status_with_unreadable_body :
  let st := RA.settled engine
              (RA.Resolves (RA.mkResponse true (inl "Unexpected token '<'")))
              in_flight in
  RA.alerts st = ["Error: Unexpected token '<'"] /\
  RA.progress st = 0 /\
  RA.analysisResult st = None /\
  RA.isLoading st = false /\
  RA.timeouts st = [].
Proof. repeat split. Qed.

(** C5, amended.  On a 2xx response whose body parses to [data]:
    [analysisResult] holds [data] as it is (a body [null] leaves the cell
    null), the timer held in [intervalRef] is cleared and [progress] is
    exactly 100.  The handler does not touch [isLoading]: it queues a timeout
    of 500 ms whose callback sets it to false.  [isAnalyzing] is cleared at
    once, nothing is alerted and no further request is issued.  A 2xx
    response whose body does not parse is handled as a failure: an alert
    with the message of the parse error, and [progress] back at 0. *)
Theorem settled_success (js : RA.Runtime) (response : RA.Response)
    (data : RA.Json) (st : RA.State) :
  RA.ok response = true ->
  RA.json response = inr data ->
  let st' := RA.settled js (RA.Resolves response) st in
  RA.analysisResult st' = RA.cell data /\
  (data <> RA.JNull -> RA.analysisResult st' = Some data) /\
  (data = RA.JNull -> RA.analysisResult st' = None) /\
  RA.intervals st' = cleared st /\
  (forall id : nat, RA.intervalRef st = Some id -> id ∉ RA.intervals st') /\
  RA.progress st' = 100 /\
  RA.isLoading st' = RA.isLoading st /\
  RA.timeouts st' = RA.timeouts st ++ [500] /\
  RA.isLoading (RA.timeout_fires st') = false /\
  RA.progress (RA.timeout_fires st') = 100 /\
  RA.analysisResult (RA.timeout_fires st') = RA.cell data /\
  RA.isAnalyzing st' = false /\
  RA.alerts st' = RA.alerts st /\
  RA.requests st' = RA.requests st /\
  (forall msg : string,
     let failed := RA.settled js (RA.Resolves (RA.mkResponse true (inl msg))) st in
     RA.alerts failed = RA.alerts st ++ ["Error: " +:+ msg] /\
     RA.progress failed = 0 /\
     RA.analysisResult failed = RA.analysisResult st).
Proof.
  intros Hok Hjson st'.
  assert (Hst' : st' =
            RA.setIsAnalyzing false
              (RA.setTimeout 500
                 (RA.setProgress 100
                    (RA.clearInterval (RA.intervalRef st)
                       (RA.setAnalysisResult (RA.cell data) st))))).
  { subst st'. unfold RA.settled, RA.try_block. rewrite Hok, Hjson. reflexivity. }
  assert (Hint : RA.intervals st' = cleared st).
  { rewrite Hst'. unfold cleared. cbn. destruct (RA.intervalRef st); reflexivity. }
  assert (Hfire : RA.timeout_fires st' = RA.setIsLoading false (RA.popTimeout st')).
  { unfold RA.timeout_fires. rewrite Hst'. cbn.
    destruct (RA.timeouts st); reflexivity. }
  split; [rewrite Hst'; reflexivity |].
  split; [intros Hdata; rewrite Hst'; cbn; unfold RA.cell;
          destruct data; try reflexivity; contradiction |].
  split; [intros ->; rewrite Hst'; reflexivity |].
  split; [exact Hint |].
  split; [intros id Href; rewrite Hint; apply cleared_not_live; exact Href |].
  split; [rewrite Hst'; reflexivity |].
  split; [rewrite Hst'; reflexivity |].
  split; [rewrite Hst'; reflexivity |].
  split; [rewrite Hfire; reflexivity |].
  split; [rewrite Hfire, Hst'; reflexivity |].
  split; [rewrite Hfire, Hst'; reflexivity |].
  split; [rewrite Hst'; reflexivity |].
  split; [rewrite Hst'; reflexivity |].
  split; [rewrite Hst'; reflexivity |].
  intros msg failed. subst failed. repeat split.
Qed.

Lemma settled_success_witness :
  RA.ok ok_87 = true /\
  RA.json ok_87 = inr (RA.ResultJson score_87) /\
  RA.analysisResult (RA.settled engine (RA.Resolves ok_87) in_flight)
    = Some (RA.ResultJson score_87) /\
  RA.progress (RA.settled engine (RA.Resolves ok_87) in_flight) = 100 /\
  RA.isLoading (RA.settled engine (RA.Resolves ok_87) in_flight)
    = RA.isLoading in_flight /\
  RA.isLoading (RA.timeout_fires (RA.settled engine (RA.Resolves ok_87) in_flight))
    = false.
Proof.
  split; [reflexivity |]. split; [reflexivity |].
  pose proof (settled_success engine ok_87 (RA.ResultJson score_87) in_flight
                eq_refl eq_refl) as H.
  cbv zeta in H.
  destruct H as (Hres & _ & _ & _ & _ & Hp & Hl & _ & Hfire & _).
  split; [exact Hres |]. split; [exact Hp |]. split; [exact Hl | exact Hfire].
Defined.

(** After success no firing alters [progress]: the timer is gone. *)
Lemma no_tick_after_success (rnd : Q) :
  let st := RA.settled engine (RA.Resolves ok_87) in_flight in
  RA.tick 1 rnd st = st.
Proof. reflexivity. Qed.



(* ===================================================================== *)
(** * Properties of file-upload.tsx *)
(* ===================================================================== *)

Example dropped_state :
  FU.selectedFile dropped = Some cv /\ FU.uploadStatus dropped = FU.uploading /\
  FU.intervals dropped !! 1%nat = Some (0%Q, cv).
Proof. repeat split. Qed.

Lemma has_code_exists (c : string) (errs : list FU.FileError) :
  FU.has_code c errs = true <-> exists e, In e errs /\ FU.code e = c.
Proof.
  unfold FU.has_code. rewrite existsb_exists.
  split; intros (e & Hin & He); exists e; split; try assumption.
  - apply String.eqb_eq. exact He.
  - apply String.eqb_eq. exact He.
Qed.

Lemma has_code_none (c : string) (errs : list FU.FileError) :
  FU.has_code c errs = false <-> forall e, In e errs -> FU.code e <> c.
Proof.
  split.
  - intros Hnone e Hin Hc.
    assert (Hsome : FU.has_code c errs = true) by (apply has_code_exists; eauto).
    congruence.
  - intros Hall. destruct (FU.has_code c errs) eqn:Hsome; [| reflexivity].
    apply has_code_exists in Hsome as (e & Hin & Hc).
    exfalso. exact (Hall e Hin Hc).
Qed.

(** The three messages differ, whatever the rendering of the limit. *)
Lemma spec_message_injective (l1 l2 : string) (r1 r2 : FU.Reason) :
  FU.spec_message l1 r1 = FU.spec_message l2 r2 -> r1 = r2.
Proof. destruct r1, r2; cbn; intros Heq; try reflexivity; discriminate Heq. Qed.

(** The branch [onDrop] takes is the reason the specification orders first. *)
Lemma rejection_message_spec (Number_toString : Q -> string)
    (props : FU.FileUploadProps) (rejection : FU.FileRejection) :
  FU.rejection_message Number_toString props rejection =
  FU.spec_message
    (Number_toString (inject_Z (FU.maxSize props) / 1024 / 1024)%Q)
    (FU.spec_reason (FU.errors rejection)).
Proof.
  unfold FU.rejection_message, FU.spec_reason.
  destruct (FU.has_code "file-too-large" (FU.errors rejection)); [reflexivity |].
  destruct (FU.has_code "file-invalid-type" (FU.errors rejection)); reflexivity.
Qed.

(** C6.  For a refused file [onDrop] stores exactly one message, that of the
    first applicable reason in the order too large, invalid type, other; the
    three messages are pairwise different, and the one for a file too large
    contains the configured limit (as [maxSize / 1024 / 1024], followed by
    [MB]).  The status becomes [error]; no file is selected and no timer
    started. *)
Theorem rejection_message_by_reason (Number_toString : Q -> string)
    (props : FU.FileUploadProps) (acceptedFiles : list File)
    (rejection : FU.FileRejection) (others : list FU.FileRejection)
    (st : FU.State) :
  let limit := Number_toString (inject_Z (FU.maxSize props) / 1024 / 1024)%Q in
  let st' := FU.onDrop Number_toString props acceptedFiles (rejection :: others) st in
  let errs := FU.errors rejection in
  FU.uploadStatus st' = FU.error /\
  FU.errorMessage st' = FU.spec_message limit (FU.spec_reason errs) /\
  (FU.spec_reason errs = FU.TooLarge <->
     exists e, In e errs /\ FU.code e = "file-too-large") /\
  (FU.spec_reason errs = FU.InvalidType <->
     (forall e, In e errs -> FU.code e <> "file-too-large") /\
     exists e, In e errs /\ FU.code e = "file-invalid-type") /\
  (FU.spec_reason errs = FU.Other <->
     forall e, In e errs ->
       FU.code e <> "file-too-large" /\ FU.code e <> "file-invalid-type") /\
  (forall (l1 l2 : string) (r1 r2 : FU.Reason),
     FU.spec_message l1 r1 = FU.spec_message l2 r2 -> r1 = r2) /\
  FU.spec_message limit FU.TooLarge =
    "File is too large. Maximum size is " +:+ limit +:+ "MB" /\
  FU.selectedFile st' = FU.selectedFile st /\
  FU.intervals st' = FU.intervals st.
Proof.
  intros limit st' errs.
  split; [reflexivity |].
  split; [apply rejection_message_spec |].
  unfold FU.spec_reason.
  destruct (FU.has_code "file-too-large" errs) eqn:Hlarge;
    [| destruct (FU.has_code "file-invalid-type" errs) eqn:Htype].
  - pose proof (proj1 (has_code_exists _ _) Hlarge) as (e & Hin & Hc).
    split; [split; [intros _; eauto | reflexivity] |].
    split; [split; [discriminate | intros [Hno _]; exfalso; exact (Hno e Hin Hc)] |].
    split; [split; [discriminate | intros Hno; exfalso; exact (proj1 (Hno e Hin) Hc)] |].
    split; [exact spec_message_injective |]. repeat split.
  - pose proof (proj1 (has_code_none _ _) Hlarge) as Hno.
    pose proof (proj1 (has_code_exists _ _) Htype) as (e & Hin & Hc).
    split; [split; [discriminate | intros (e' & Hin' & Hc'); exfalso; exact (Hno e' Hin' Hc')] |].
    split; [split; [intros _; split; [exact Hno | eauto] | reflexivity] |].
    split; [split; [discriminate | intros Hnone; exfalso; exact (proj2 (Hnone e Hin) Hc)] |].
    split; [exact spec_message_injective |]. repeat split.
  - pose proof (proj1 (has_code_none _ _) Hlarge) as Hno.
    pose proof (proj1 (has_code_none _ _) Htype) as Hnot.
    split; [split; [discriminate | intros (e' & Hin' & Hc'); exfalso; exact (Hno e' Hin' Hc')] |].
    split; [split; [discriminate | intros [_ (e' & Hin' & Hc')]; exfalso; exact (Hnot e' Hin' Hc')] |].
    split; [split; [intros _ e Hin; split; [exact (Hno e Hin) | exact (Hnot e Hin)] | reflexivity] |].
    split; [exact spec_message_injective |]. repeat split.
Qed.

(** Scenario B of the specification: 15 MB against the default limit. *)
Example too_large_example :
  let big := mkFile "big.pdf" (15 * 1024 * 1024) "application/pdf" in
  let rejection :=
    FU.mkRejection big
      [FU.mkFileError "file-invalid-type" "File type must be application/pdf,.pdf";
       FU.mkFileError "file-too-large" "File is larger than 10485760 bytes"] in
  let st := FU.drop show_integral FU.default_props [] [rejection] FU.init in
  FU.errorMessage st = "File is too large. Maximum size is 10MB" /\
  FU.uploadStatus st = FU.error /\ FU.selectedFile st = None /\
  FU.intervals st = ∅.
Proof. repeat split. Qed.

(** [removeFile] leaves the timers alone: called during an upload, the timer
    of the removed file runs on and reports success. *)
Example removeFile_keeps_timer :
  let st := FU.removeFile dropped in
  let st' := FU.tick 1 (99 # 100) (FU.tick 1 (99 # 100)
               (FU.tick 1 (99 # 100) (FU.tick 1 (99 # 100) st))) in
  FU.uploadStatus st = FU.idle /\ FU.intervals st = FU.intervals dropped /\
  FU.uploadStatus st' = FU.success /\ FU.selectedFile st' = None /\
  FU.onFileSelect_calls st' = [cv].
Proof. repeat split. Qed.

(** The simulated upload of the widget, for comparison with the timer of
    ResumeAnalyzer: its value never exceeds 100, never goes down, and reaches
    100 (and [success]) by the timer alone, there being no request to wait
    for. *)
Lemma upload_tick_capped (id : nat) (rnd : Q) (st : FU.State) (p : Q) (f : File) :
  FU.intervals st !! id = Some (p, f) ->
  (FU.uploadProgress (FU.tick id rnd st) <= 100)%Q.
Proof.
  intros Hlive. unfold FU.tick. rewrite Hlive.
  destruct (Qle_bool 100 (p + rnd * 30)) eqn:Hdone; cbn.
  - apply Qle_refl.
  - apply Qlt_le_weak. apply Qnot_le_lt. intros Hle.
    apply Qle_bool_iff in Hle. congruence.
Qed.

Lemma upload_tick_monotone (id : nat) (rnd : Q) (st : FU.State) (p : Q) (f : File) :
  is_random rnd ->
  FU.intervals st !! id = Some (p, f) ->
  (p <= 100)%Q ->
  (p <= FU.uploadProgress (FU.tick id rnd st))%Q.
Proof.
  intros [Hlo _] Hlive Hp. unfold FU.tick. rewrite Hlive.
  destruct (Qle_bool 100 (p + rnd * 30)) eqn:Hdone; cbn; [exact Hp |].
  rewrite <- (Qplus_0_r p) at 1. apply Qplus_le_compat; [apply Qle_refl |].
  apply Qmult_le_0_compat; [exact Hlo | discriminate].
Qed.

Example upload_completes_by_timer :
  let st := FU.tick 1 (99 # 100) (FU.tick 1 (99 # 100)
              (FU.tick 1 (99 # 100) (FU.tick 1 (99 # 100) dropped))) in
  FU.uploadStatus st = FU.success /\ FU.uploadProgress st = 100%Q /\
  FU.intervals st = ∅ /\ FU.onFileSelect_calls st = [cv].
Proof. repeat split. Qed.



(** C8, as stated, fails: the two decimals of [toFixed(2)] do not survive
    [parseFloat]. *)
Lemma two_decimals_lost_at_1MiB :
  FU.formatFileSize 1048576 <> "1.00 MB".
Proof. vm_compute. discriminate. Qed.

(** C8, amended.  A file of exactly 1,048,576 bytes is shown as ["1 MB"]: the
    unit is chosen on a 1024 base (index 2), the quotient is rounded to two
    decimals (100 hundredths) and printed without trailing zeros. *)
Theorem formatFileSize_1MiB :
  FU.formatFileSize 1048576 = "1 MB" /\
  FU.unit_index 1048576 = 2 /\
  FU.toFixed_hundredths 1048576 2 = 100 /\
  FU.sizes_at 2 = "MB".
Proof. repeat split. Qed.

Lemma unit_index_range (bytes : Z) :
  0 < bytes -> bytes < 1024 ^ 4 -> 0 <= FU.unit_index bytes <= 3.
Proof.
  intros Hpos Hlt. unfold FU.unit_index.
  assert (Hlog : 0 <= Z.log2 bytes < 40).
  { split; [apply Z.log2_nonneg |].
    apply Z.log2_lt_pow2; [exact Hpos |].
    change (2 ^ 40) with (1024 ^ 4). exact Hlt. }
  split.
  - apply Z.div_pos; lia.
  - apply Z.lt_succ_r. apply Z.div_lt_upper_bound; lia.
Qed.

(** C10.  [formatFileSize] returns ["0 Bytes"] for 0 before any logarithm is
    taken, and for a file that passed validation ([bytes <= maxSize]) under a
    limit of at most 10 GB the unit index is between 0 and 3, so that
    [sizes[i]] is one of the four unit names. *)
Theorem formatFileSize_index_in_bounds (bytes maxSize : Z) :
  0 <= bytes ->
  bytes <= maxSize ->
  maxSize <= 10 * 1024 ^ 3 ->
  FU.formatFileSize 0 = "0 Bytes" /\
  (bytes = 0 \/
   0 <= FU.unit_index bytes <= 3 /\
   exists unit : string,
     FU.sizes !! Z.to_nat (FU.unit_index bytes) = Some unit /\
     FU.formatFileSize bytes =
       FU.show_hundredths (FU.toFixed_hundredths bytes (FU.unit_index bytes))
         +:+ " " +:+ unit).
Proof.
  intros Hnonneg Hvalid Hlimit.
  split; [reflexivity |].
  destruct (Z.eq_dec bytes 0) as [Hzero | Hnz]; [left; exact Hzero | right].
  assert (Hrange : 0 <= FU.unit_index bytes <= 3).
  { apply unit_index_range; [lia |].
    apply Z.le_lt_trans with (10 * 1024 ^ 3); [lia | reflexivity]. }
  split; [exact Hrange |].
  assert (Hunit : exists unit, FU.sizes !! Z.to_nat (FU.unit_index bytes) = Some unit).
  { assert (Hcases : FU.unit_index bytes = 0 \/ FU.unit_index bytes = 1 \/
                     FU.unit_index bytes = 2 \/ FU.unit_index bytes = 3) by lia.
    destruct Hcases as [-> | [-> | [-> | ->]]]; eexists; reflexivity. }
  destruct Hunit as [unit Hunit]. exists unit. split; [exact Hunit |].
  unfold FU.formatFileSize, FU.sizes_at.
  destruct (bytes =? 0) eqn:Heq; [apply Z.eqb_eq in Heq; contradiction |].
  destruct (bytes <? 0) eqn:Hneg; [apply Z.ltb_lt in Hneg; lia |].
  cbv zeta. rewrite Hunit. reflexivity.
Qed.

Lemma formatFileSize_index_in_bounds_witness :
  0 <= 2097152 /\ 2097152 <= 10485760 /\ 10485760 <= 10 * 1024 ^ 3 /\
  FU.formatFileSize 0 = "0 Bytes" /\
  (2097152 = 0 \/
   0 <= FU.unit_index 2097152 <= 3 /\
   exists unit : string,
     FU.sizes !! Z.to_nat (FU.unit_index 2097152) = Some unit /\
     FU.formatFileSize 2097152 =
       FU.show_hundredths (FU.toFixed_hundredths 2097152 (FU.unit_index 2097152))
         +:+ " " +:+ unit).
Proof.
  split; [lia |]. split; [lia |]. split; [vm_compute; discriminate |].
  apply (formatFileSize_index_in_bounds 2097152 10485760).
  - lia.
  - lia.
  - vm_compute. discriminate.
Defined.

(* ===================================================================== *)
(** * The upload widget under its events *)
(* ===================================================================== *)

Lemma widget_init_consistent : Widget.consistent FU.init.
Proof.
  constructor; cbn.
  - intros id p f Hlive. rewrite lookup_empty in Hlive. discriminate.
  - discriminate.
  - split; [intros _; left; reflexivity | reflexivity].
  - reflexivity.
  - discriminate.
Qed.

Lemma widget_accept_consistent (st : FU.State) (f : File) :
  Widget.consistent st ->
  FU.selectedFile st = None ->
  Widget.consistent
    {| FU.selectedFile := Some f;
       FU.uploadProgress := FU.uploadProgress st;
       FU.uploadStatus := FU.uploading;
       FU.errorMessage := "";
       FU.intervals := <[FU.next_interval st := (0%Q, f)]> (FU.intervals st);
       FU.next_interval := S (FU.next_interval st);
       FU.onFileSelect_calls := FU.onFileSelect_calls st;
       FU.onFileRemove_calls := FU.onFileRemove_calls st |}.
Proof.
  intros Hst Hnone. constructor; cbn.
  - intros id p g Hlive.
    destruct (decide (FU.next_interval st = id)) as [<- | Hne].
    + rewrite lookup_insert_eq in Hlive. injection Hlive as <- <-.
      repeat split; try reflexivity; try discriminate.
      apply (Widget.nothing_selected_progress st Hst Hnone).
    + rewrite lookup_insert_ne in Hlive by exact Hne.
      destruct (Widget.live_timer st Hst id p g Hlive) as (_ & Hsel & _).
      congruence.
  - intros _. exists 0%Q, f. apply lookup_insert_eq.
  - split; [discriminate | intros [H | H]; discriminate H].
  - discriminate.
  - discriminate.
Qed.

Lemma widget_reject_consistent (st : FU.State) (msg : string) :
  Widget.consistent st ->
  FU.selectedFile st = None ->
  Widget.consistent
    {| FU.selectedFile := FU.selectedFile st;
       FU.uploadProgress := FU.uploadProgress st;
       FU.uploadStatus := FU.error;
       FU.errorMessage := msg;
       FU.intervals := FU.intervals st;
       FU.next_interval := FU.next_interval st;
       FU.onFileSelect_calls := FU.onFileSelect_calls st;
       FU.onFileRemove_calls := FU.onFileRemove_calls st |}.
Proof.
  intros Hst Hnone. constructor; cbn.
  - intros id p g Hlive.
    destruct (Widget.live_timer st Hst id p g Hlive) as (_ & Hsel & _).
    congruence.
  - discriminate.
  - split; [intros _; right; reflexivity | intros _; exact Hnone].
  - intros _. apply (Widget.nothing_selected_progress st Hst Hnone).
  - discriminate.
Qed.

Lemma widget_remove_consistent (st : FU.State) :
  Widget.consistent st ->
  FU.is_uploading (FU.uploadStatus st) = false ->
  Widget.consistent (FU.removeFile st).
Proof.
  intros Hst Hidle. constructor; cbn.
  - intros id p g Hlive.
    destruct (Widget.live_timer st Hst id p g Hlive) as (Hup & _).
    rewrite Hup in Hidle. discriminate.
  - discriminate.
  - split; [intros _; left; reflexivity | reflexivity].
  - reflexivity.
  - discriminate.
Qed.

Lemma widget_tick_consistent (st : FU.State) (id : nat) (rnd : Q) :
  is_random rnd ->
  Widget.consistent st ->
  Widget.consistent (FU.tick id rnd st).
Proof.
  intros [Hlo _] Hst. unfold FU.tick.
  destruct (FU.intervals st !! id) as [[p f] |] eqn:Hlive; [| exact Hst].
  destruct (Widget.live_timer st Hst id p f Hlive)
    as (Hup & Hsel & Hshown & Hp0 & Hp100 & Hnext).
  assert (Hgrow : (0 <= p + rnd * 30)%Q).
  { apply Qle_trans with p; [exact Hp0 |].
    rewrite <- (Qplus_0_r p) at 1. apply Qplus_le_compat; [apply Qle_refl |].
    apply Qmult_le_0_compat; [exact Hlo | discriminate]. }
  destruct (Qle_bool 100 (p + rnd * 30)) eqn:Hdone; constructor; cbn.
  - intros id' p' g Hlive'.
    destruct (decide (id = id')) as [<- | Hne].
    + rewrite lookup_delete_eq in Hlive'. discriminate.
    + rewrite lookup_delete_ne in Hlive' by exact Hne.
      destruct (Widget.live_timer st Hst id' p' g Hlive') as (_ & _ & _ & _ & _ & Hn).
      exfalso. apply Hne. lia.
  - discriminate.
  - rewrite Hsel. split; [discriminate | intros [H | H]; discriminate H].
  - rewrite Hsel. discriminate.
  - intros _. exists f. rewrite last_snoc. repeat split. exact Hsel.
  - intros id' p' g Hlive'.
    destruct (decide (id = id')) as [<- | Hne].
    + rewrite lookup_insert_eq in Hlive'. injection Hlive' as <- <-.
      repeat split; try assumption.
      apply Qnot_le_lt. intros Hle. apply Qle_bool_iff in Hle. congruence.
    + rewrite lookup_insert_ne in Hlive' by exact Hne.
      destruct (Widget.live_timer st Hst id' p' g Hlive') as (_ & _ & _ & _ & _ & Hn).
      exfalso. apply Hne. lia.
  - intros _. exists (p + rnd * 30)%Q, f.
    rewrite <- Hnext. cbn. apply lookup_insert_eq.
  - rewrite Hsel, Hup. split; [discriminate | intros [H | H]; discriminate H].
  - rewrite Hsel. discriminate.
  - rewrite Hup. discriminate.
Qed.

Lemma widget_step_consistent (Number_toString : Q -> string)
    (props : FU.FileUploadProps) (e : Widget.Event) (st : FU.State) :
  Widget.valid e ->
  Widget.consistent st ->
  Widget.consistent (Widget.step Number_toString props e st).
Proof.
  intros Hvalid Hst. destruct e as [acceptedFiles rejectedFiles | id rnd |]; cbn.
  - unfold FU.drop.
    destruct (FU.selectedFile st) eqn:Hsel; [exact Hst |].
    destruct (FU.disabled props || FU.is_uploading (FU.uploadStatus st));
      [exact Hst |].
    unfold FU.onDrop. destruct rejectedFiles as [| rejection rest].
    + destruct acceptedFiles as [| f others]; [exact Hst |].
      apply widget_accept_consistent; assumption.
    + apply widget_reject_consistent; assumption.
  - apply widget_tick_consistent; assumption.
  - unfold FU.clickRemove.
    destruct (FU.selectedFile st); [| exact Hst].
    destruct (FU.is_uploading (FU.uploadStatus st)) eqn:Hidle; [exact Hst |].
    apply widget_remove_consistent; assumption.
Qed.

Lemma widget_run_consistent (Number_toString : Q -> string)
    (props : FU.FileUploadProps) (events : list Widget.Event) :
  forall st : FU.State,
    Forall Widget.valid events ->
    Widget.consistent st ->
    Widget.consistent (Widget.run Number_toString props events st).
Proof.
  induction events as [| e events IH]; intros st Hall Hst; [exact Hst |].
  inversion Hall as [| ? ? He Hrest]; subst.
  apply IH; [exact Hrest |].
  apply widget_step_consistent; assumption.
Qed.

Lemma widget_session_valid : Forall Widget.valid widget_session.
Proof. repeat constructor; discriminate. Qed.

(** X1.  In every state the widget reaches through its UI, a timer of the
    simulated upload is alive exactly while the status is [uploading]; there
    is at most one; it belongs to the selected file, and the progress shown is
    its counter, which lies in [0, 100). *)
Theorem widget_single_timer (Number_toString : Q -> string)
    (props : FU.FileUploadProps) (events : list Widget.Event) :
  Forall Widget.valid events ->
  let st := Widget.run Number_toString props events FU.init in
  (FU.uploadStatus st = FU.uploading <->
     exists id p f, FU.intervals st !! id = Some (p, f)) /\
  (forall id1 id2 p1 p2 f1 f2,
     FU.intervals st !! id1 = Some (p1, f1) ->
     FU.intervals st !! id2 = Some (p2, f2) -> id1 = id2) /\
  (forall id p f,
     FU.intervals st !! id = Some (p, f) ->
     FU.selectedFile st = Some f /\ FU.uploadProgress st = p /\
     (0 <= p)%Q /\ (p < 100)%Q).
Proof.
  intros Hall st.
  assert (Hst : Widget.consistent st)
    by (apply widget_run_consistent; [exact Hall | exact widget_init_consistent]).
  split; [split |].
  - intros Hup. destruct (Widget.uploading_timer st Hst Hup) as (p & f & Hlive).
    eauto.
  - intros (id & p & f & Hlive).
    apply (Widget.live_timer st Hst id p f Hlive).
  - split.
    + intros id1 id2 p1 p2 f1 f2 H1 H2.
      destruct (Widget.live_timer st Hst _ _ _ H1) as (_ & _ & _ & _ & _ & Hn1).
      destruct (Widget.live_timer st Hst _ _ _ H2) as (_ & _ & _ & _ & _ & Hn2).
      lia.
    + intros id p f Hlive.
      destruct (Widget.live_timer st Hst _ _ _ Hlive) as (_ & Hsel & Hp & H0 & H100 & _).
      repeat split; assumption.
Qed.

Lemma widget_single_timer_witness :
  Forall Widget.valid widget_session /\
  (FU.uploadStatus (Widget.run show_integral FU.default_props widget_session FU.init)
     = FU.uploading <->
   exists id p f,
     FU.intervals (Widget.run show_integral FU.default_props widget_session FU.init)
       !! id = Some (p, f)).
Proof.
  split; [exact widget_session_valid |].
  exact (proj1 (widget_single_timer show_integral FU.default_props widget_session
                  widget_session_valid)).
Defined.

(** X2.  In every reachable state with status [success], a file is selected,
    the progress is 100 and the last call of [onFileSelect] passed that very
    file. *)
Theorem widget_success_reports_selected (Number_toString : Q -> string)
    (props : FU.FileUploadProps) (events : list Widget.Event) :
  Forall Widget.valid events ->
  let st := Widget.run Number_toString props events FU.init in
  FU.uploadStatus st = FU.success ->
  exists f : File,
    FU.selectedFile st = Some f /\
    last (FU.onFileSelect_calls st) = Some f /\
    FU.uploadProgress st = 100%Q.
Proof.
  intros Hall st Hok.
  assert (Hst : Widget.consistent st)
    by (apply widget_run_consistent; [exact Hall | exact widget_init_consistent]).
  exact (Widget.succeeded st Hst Hok).
Qed.

(** A session that runs to the end of the upload. *)
Lemma widget_success_reports_selected_witness :
  let events :=
    [Widget.Drop [cv] []; Widget.Tick 1 (9 # 10); Widget.Tick 1 (9 # 10);
     Widget.Tick 1 (9 # 10); Widget.Tick 1 (9 # 10)] in
  let st := Widget.run show_integral FU.default_props events FU.init in
  Forall Widget.valid events /\ FU.uploadStatus st = FU.success /\
  exists f : File,
    FU.selectedFile st = Some f /\
    last (FU.onFileSelect_calls st) = Some f /\
    FU.uploadProgress st = 100%Q.
Proof.
  intros events st.
  assert (Hall : Forall Widget.valid events) by (repeat constructor; discriminate).
  split; [exact Hall |]. split; [reflexivity |].
  apply (widget_success_reports_selected show_integral FU.default_props events Hall).
  reflexivity.
Defined.

(** X3.  In every reachable state no file is selected exactly when the status
    is [idle] or [error], and the progress is 0 then.  In particular the
    message that [onDrop] stores for a refused file is never rendered: the
    error line sits in the card of a selected file. *)
Theorem widget_error_line_never_shown (Number_toString : Q -> string)
    (props : FU.FileUploadProps) (events : list Widget.Event) :
  Forall Widget.valid events ->
  let st := Widget.run Number_toString props events FU.init in
  (FU.selectedFile st = None <->
     FU.uploadStatus st = FU.idle \/ FU.uploadStatus st = FU.error) /\
  (FU.selectedFile st = None -> FU.uploadProgress st = 0%Q) /\
  error_line st = None.
Proof.
  intros Hall st.
  assert (Hst : Widget.consistent st)
    by (apply widget_run_consistent; [exact Hall | exact widget_init_consistent]).
  split; [exact (Widget.nothing_selected st Hst) |].
  split; [exact (Widget.nothing_selected_progress st Hst) |].
  unfold error_line.
  destruct (FU.selectedFile st) eqn:Hsel; [| reflexivity].
  destruct (FU.uploadStatus st) eqn:Hstatus; try reflexivity.
  assert (Hnone : FU.selectedFile st = None).
  { apply (Widget.nothing_selected st Hst). right. exact Hstatus. }
  congruence.
Qed.

Lemma widget_error_line_never_shown_witness :
  let events :=
    [Widget.Drop [] [FU.mkRejection cv [FU.mkFileError "file-too-large" "too large"]]] in
  let st := Widget.run show_integral FU.default_props events FU.init in
  Forall Widget.valid events /\
  FU.uploadStatus st = FU.error /\
  FU.errorMessage st = "File is too large. Maximum size is 10MB" /\
  error_line st = None.
Proof.
  intros events st.
  assert (Hall : Forall Widget.valid events) by (repeat constructor).
  split; [exact Hall |]. split; [reflexivity |]. split; [reflexivity |].
  exact (proj2 (proj2 (widget_error_line_never_shown show_integral FU.default_props
                         events Hall))).
Defined.

(** X4.  While the upload is running, a firing of any timer never lowers the
    progress shown and never takes it above 100. *)
Theorem widget_progress_monotone (Number_toString : Q -> string)
    (props : FU.FileUploadProps) (events : list Widget.Event)
    (id : nat) (rnd : Q) :
  Forall Widget.valid events ->
  is_random rnd ->
  let st := Widget.run Number_toString props events FU.init in
  FU.uploadStatus st = FU.uploading ->
  (FU.uploadProgress st <= FU.uploadProgress (FU.tick id rnd st))%Q /\
  (FU.uploadProgress (FU.tick id rnd st) <= 100)%Q.
Proof.
  intros Hall Hrnd st Hup.
  assert (Hst : Widget.consistent st)
    by (apply widget_run_consistent; [exact Hall | exact widget_init_consistent]).
  destruct (FU.intervals st !! id) as [[p f] |] eqn:Hlive.
  - destruct (Widget.live_timer st Hst id p f Hlive) as (_ & _ & Hshown & _ & H100 & _).
    split.
    + rewrite Hshown at 1.
      apply (upload_tick_monotone id rnd st p f Hrnd Hlive).
      apply Qlt_le_weak. exact H100.
    + apply (upload_tick_capped id rnd st p f Hlive).
  - assert (Hsame : FU.tick id rnd st = st) by (unfold FU.tick; rewrite Hlive; reflexivity).
    rewrite Hsame. split; [apply Qle_refl |].
    destruct (Widget.uploading_timer st Hst Hup) as (p & f & Hlive').
    destruct (Widget.live_timer st Hst _ p f Hlive') as (_ & _ & Hshown & _ & H100 & _).
    rewrite Hshown. apply Qlt_le_weak. exact H100.
Qed.

Lemma widget_progress_monotone_witness :
  let st := Widget.run show_integral FU.default_props widget_session FU.init in
  Forall Widget.valid widget_session /\ is_random (3 # 4) /\
  FU.uploadStatus st = FU.uploading /\
  (FU.uploadProgress st <= FU.uploadProgress (FU.tick 1 (3 # 4) st))%Q /\
  (FU.uploadProgress (FU.tick 1 (3 # 4) st) <= 100)%Q.
Proof.
  intros st.
  assert (Hrnd : is_random (3 # 4)) by (split; [discriminate | reflexivity]).
  split; [exact widget_session_valid |]. split; [exact Hrnd |].
  split; [reflexivity |].
  apply (widget_progress_monotone show_integral FU.default_props widget_session
           1%nat (3 # 4) widget_session_valid Hrnd).
  reflexivity.
Defined.

(* ===================================================================== *)
(** * The analyzer page under its events *)
(* ===================================================================== *)

Lemma page_start_consistent : Page.consistent Page.start.
Proof.
  constructor; cbn.
  - reflexivity.
  - intros id Hin. apply not_elem_of_empty in Hin. contradiction.
  - lia.
  - discriminate.
  - intros _. left. split; reflexivity.
Qed.

Ltac open_run r Hr :=
  destruct r as [[file jobMode selectedProfile jobDescription isAnalyzing
                    analysisResult isLoading progress intervalRef intervals
                    next_interval timeouts requests alerts] answered];
  destruct Hr as [Hone Htimer Hrange Hbusy Hidle]; cbn in *.

Lemma page_file_change_consistent (js : RA.Runtime) (files : list File)
    (r : Page.Run) :
  Page.consistent r -> Page.consistent (Page.step js (Page.FileChange files) r).
Proof.
  intros Hr. destruct files as [| f files]; [destruct r; exact Hr |].
  open_run r Hr. constructor; cbn; try assumption.
  intros Han. split; [apply (Hbusy Han) | discriminate].
Qed.

Lemma page_click_consistent (js : RA.Runtime) (r : Page.Run) :
  Page.consistent r -> Page.consistent (Page.step js Page.ClickStart r).
Proof.
  intros Hr. pose proof Hr as Hr0. open_run r Hr.
  unfold RA.clickStart, RA.button_disabled; cbn.
  destruct isAnalyzing; [exact Hr0 |].
  destruct file as [f |]; [| exact Hr0]. cbn.
  constructor; cbn.
  - rewrite length_app. cbn. lia.
  - intros id Hin. apply elem_of_union in Hin as [Hin | Hin].
    + apply elem_of_singleton in Hin. subst id. split; reflexivity.
    + destruct (Htimer id Hin) as [_ Hbad]. discriminate Hbad.
  - lia.
  - intros _. split; [reflexivity | discriminate].
  - discriminate.
Qed.

Lemma page_tick_consistent (js : RA.Runtime) (id : nat) (rnd : Q) (r : Page.Run) :
  is_random rnd ->
  Page.consistent r -> Page.consistent (Page.step js (Page.Tick id rnd) r).
Proof.
  intros Hrnd Hr. pose proof Hr as Hr0. apply floor_random_digit in Hrnd.
  unfold Page.step, RA.tick.
  set (d := Qfloor (rnd * 10)) in *. clearbody d.
  open_run r Hr.
  destruct (decide (id ∈ intervals)) as [Hlive | Hdead]; [| exact Hr0].
  destruct (Htimer id Hlive) as [Href Han]. subst intervalRef isAnalyzing.
  destruct (95 <=? progress) eqn:Hcap; cbn.
  - constructor; cbn.
    + exact Hone.
    + intros id' Hin. apply elem_of_difference in Hin as [Hin _].
      exact (Htimer id' Hin).
    + lia.
    + exact Hbusy.
    + discriminate.
  - apply Z.leb_gt in Hcap.
    assert (Hlt : (progress <? 95) = true) by (apply Z.ltb_lt; exact Hcap).
    rewrite Hlt. constructor; cbn.
    + exact Hone.
    + exact Htimer.
    + lia.
    + exact Hbusy.
    + discriminate.
Qed.

Lemma page_settle_consistent (js : RA.Runtime) (o : RA.FetchOutcome)
    (r : Page.Run) :
  Page.consistent r -> Page.consistent (Page.step js (Page.Settle o) r).
Proof.
  intros Hr. unfold Page.step.
  destruct (Page.answered r <? length (RA.requests (Page.page r)))%nat eqn:Hpending;
    [| exact Hr].
  apply Nat.ltb_lt in Hpending. open_run r Hr.
  destruct isAnalyzing; [| lia].
  destruct (Hbusy eq_refl) as [Hres Hfile]. subst analysisResult.
  assert (Hcleared : forall id : nat,
            id ∈ match intervalRef with
                 | Some id0 => intervals ∖ {[id0]}
                 | None => intervals
                 end -> False).
  { intros id Hin. destruct intervalRef as [id0 |].
    - apply elem_of_difference in Hin as [Hin Hne].
      destruct (Htimer id Hin) as [Href _]. injection Href as ->.
      apply Hne. apply elem_of_singleton. reflexivity.
    - destruct (Htimer id Hin) as [Href _]. discriminate Href. }
  unfold RA.settled. destruct (RA.try_block js o) as [msg | data]; cbn.
  - constructor; cbn.
    + lia.
    + intros id Hin. exfalso. exact (Hcleared id Hin).
    + lia.
    + discriminate.
    + intros _. left. split; reflexivity.
  - constructor; cbn.
    + lia.
    + intros id Hin. exfalso. exact (Hcleared id Hin).
    + lia.
    + discriminate.
    + intros _. right. reflexivity.
Qed.

Lemma page_timeout_consistent (js : RA.Runtime) (r : Page.Run) :
  Page.consistent r -> Page.consistent (Page.step js Page.TimeoutFires r).
Proof.
  intros Hr. pose proof Hr as Hr0. open_run r Hr.
  unfold RA.timeout_fires; cbn.
  destruct timeouts as [| delay timeouts]; [exact Hr0 |].
  constructor; cbn; assumption.
Qed.

Lemma page_step_consistent (js : RA.Runtime) (e : Page.Event) (r : Page.Run) :
  Page.valid e -> Page.consistent r -> Page.consistent (Page.step js e r).
Proof.
  intros Hvalid Hr. destruct e as [files | | id rnd | o |].
  - apply page_file_change_consistent; exact Hr.
  - apply page_click_consistent; exact Hr.
  - apply page_tick_consistent; assumption.
  - apply page_settle_consistent; exact Hr.
  - apply page_timeout_consistent; exact Hr.
Qed.

Lemma page_run_consistent (js : RA.Runtime) (events : list Page.Event) :
  forall r : Page.Run,
    Forall Page.valid events ->
    Page.consistent r ->
    Page.consistent (Page.run js events r).
Proof.
  induction events as [| e events IH]; intros r Hall Hr; [exact Hr |].
  inversion Hall as [| ? ? He Hrest]; subst.
  apply IH; [exact Hrest |].
  apply page_step_consistent; assumption.
Qed.

Lemma page_session_valid : Forall Page.valid page_session.
Proof. repeat constructor; discriminate. Qed.

(** X5.  Through the UI at most one request is outstanding at any time, and
    one is outstanding exactly while [isAnalyzing] is true; a file is selected
    and no result is held during that time. *)
Theorem page_one_request_outstanding (js : RA.Runtime) (events : list Page.Event) :
  Forall Page.valid events ->
  let r := Page.run js events Page.start in
  (Page.outstanding r <= 1)%nat /\
  (Page.outstanding r = 1%nat <-> RA.isAnalyzing (Page.page r) = true) /\
  (RA.isAnalyzing (Page.page r) = true ->
     RA.file (Page.page r) <> None /\ RA.analysisResult (Page.page r) = None).
Proof.
  intros Hall r.
  assert (Hr : Page.consistent r)
    by (apply page_run_consistent; [exact Hall | exact page_start_consistent]).
  pose proof (Page.one_outstanding r Hr) as Hone.
  unfold Page.outstanding.
  destruct (RA.isAnalyzing (Page.page r)) eqn:Han.
  - split; [lia |]. split; [split; [reflexivity | lia] |].
    intros _. destruct (Page.analyzing_state r Hr Han) as [Hres Hfile].
    split; assumption.
  - split; [lia |]. split; [split; [lia | discriminate] | discriminate].
Qed.

Lemma page_one_request_outstanding_witness :
  Forall Page.valid page_session /\
  length (RA.requests (Page.page (Page.run engine page_session Page.start))) = 2%nat /\
  (Page.outstanding (Page.run engine page_session Page.start) <= 1)%nat.
Proof.
  split; [exact page_session_valid |]. split; [reflexivity |].
  exact (proj1 (page_one_request_outstanding engine page_session page_session_valid)).
Defined.

(** X6.  Through the UI no timer is leaked: every live interval timer is the
    one held in [intervalRef] (so there is at most one), and none is alive
    once [isAnalyzing] is false. *)
Theorem page_no_leaked_timer (js : RA.Runtime) (events : list Page.Event) :
  Forall Page.valid events ->
  let st := Page.page (Page.run js events Page.start) in
  (forall id : nat, id ∈ RA.intervals st -> RA.intervalRef st = Some id) /\
  (forall id1 id2 : nat,
     id1 ∈ RA.intervals st -> id2 ∈ RA.intervals st -> id1 = id2) /\
  (RA.isAnalyzing st = false -> RA.intervals st = ∅).
Proof.
  intros Hall st.
  assert (Hr : Page.consistent (Page.run js events Page.start))
    by (apply page_run_consistent; [exact Hall | exact page_start_consistent]).
  pose proof (Page.timer_in_ref _ Hr) as Htimer. fold st in Htimer.
  split; [intros id Hin; apply (Htimer id Hin) |].
  split.
  - intros id1 id2 H1 H2.
    destruct (Htimer id1 H1) as [Href1 _]. destruct (Htimer id2 H2) as [Href2 _].
    congruence.
  - intros Hidle. apply elem_of_equiv_empty_L. intros id Hin.
    destruct (Htimer id Hin) as [_ Han]. congruence.
Qed.

Lemma page_no_leaked_timer_witness :
  let events := [Page.FileChange [cv]; Page.ClickStart; Page.Tick 1 (5 # 10);
                 Page.Settle (RA.Resolves ok_87)] in
  let st := Page.page (Page.run engine events Page.start) in
  Forall Page.valid events /\ RA.isAnalyzing st = false /\ RA.intervals st = ∅.
Proof.
  intros events st.
  assert (Hall : Forall Page.valid events) by (repeat constructor; discriminate).
  split; [exact Hall |]. split; [reflexivity |].
  apply (proj2 (proj2 (page_no_leaked_timer engine events Hall))). reflexivity.
Defined.

(** X7.  Through the UI [progress] stays within 0..103; when no analysis is
    running it is 0 or 100; a result is held only when no analysis is running
    and [progress] is 100, and none is held when [progress] is 0.  (A 2xx
    response with the body [null] leaves [progress] at 100 with no result.) *)
Theorem page_result_only_after_success (js : RA.Runtime) (events : list Page.Event) :
  Forall Page.valid events ->
  let st := Page.page (Page.run js events Page.start) in
  0 <= RA.progress st <= 103 /\
  (RA.isAnalyzing st = false -> RA.progress st = 0 \/ RA.progress st = 100) /\
  (RA.analysisResult st <> None ->
     RA.isAnalyzing st = false /\ RA.progress st = 100) /\
  (RA.isAnalyzing st = false -> RA.progress st = 0 -> RA.analysisResult st = None).
Proof.
  intros Hall st.
  assert (Hr : Page.consistent (Page.run js events Page.start))
    by (apply page_run_consistent; [exact Hall | exact page_start_consistent]).
  pose proof (Page.progress_range _ Hr) as Hrange.
  pose proof (Page.analyzing_state _ Hr) as Hbusy.
  pose proof (Page.idle_state _ Hr) as Hidle.
  fold st in Hrange, Hbusy, Hidle.
  split; [exact Hrange |]. split; [| split].
  - intros Hfree. destruct (Hidle Hfree) as [[H0 _] | H100]; [left | right];
      assumption.
  - intros Hres. destruct (RA.isAnalyzing st) eqn:Han.
    + destruct (Hbusy eq_refl) as [Hnone _]. contradiction.
    + split; [reflexivity |].
      destruct (Hidle eq_refl) as [[_ Hnone] | H100]; [contradiction | exact H100].
  - intros Hfree H0.
    destruct (Hidle Hfree) as [[_ Hnone] | H100]; [exact Hnone | lia].
Qed.

Lemma page_result_only_after_success_witness :
  Forall Page.valid page_session /\
  0 <= RA.progress (Page.page (Page.run engine page_session Page.start)) <= 103.
Proof.
  split; [exact page_session_valid |].
  exact (proj1 (page_result_only_after_success engine page_session page_session_valid)).
Defined.

(** The body [null] of a 2xx response: [progress] is 100 and no result is
    held. *)
Example null_result :
  let st := Page.page (Page.run engine
                         [Page.FileChange [cv]; Page.ClickStart;
                          Page.Settle (RA.Resolves (RA.mkResponse true (inr RA.JNull)))]
                         Page.start) in
  RA.isAnalyzing st = false /\ RA.progress st = 100 /\ RA.analysisResult st = None.
Proof. repeat split. Qed.

Lemma page_step_keeps_file (js : RA.Runtime) (e : Page.Event) (r : Page.Run) :
  RA.file (Page.page r) <> None ->
  RA.file (Page.page (Page.step js e r)) <> None.
Proof.
  intros Hfile. destruct e as [files | | id rnd | o |]; unfold Page.step.
  - destruct files as [| f files]; [exact Hfile | discriminate].
  - cbn. unfold RA.clickStart. destruct (RA.button_disabled (Page.page r));
      [exact Hfile |].
    unfold RA.startAnalysis.
    destruct (RA.file (Page.page r)) as [f |] eqn:Hf; [cbn; congruence | contradiction].
  - cbn. unfold RA.tick. destruct (decide (id ∈ RA.intervals (Page.page r)));
      [| exact Hfile].
    destruct (95 <=? RA.progress (Page.page r)); exact Hfile.
  - destruct (Page.answered r <? length (RA.requests (Page.page r)))%nat;
      [| exact Hfile].
    cbn. unfold RA.settled. destruct (RA.try_block js o); exact Hfile.
  - cbn. unfold RA.timeout_fires. destruct (RA.timeouts (Page.page r)); exact Hfile.
Qed.

(** X8.  The page has no way to unselect a file: once [file] is not null, it
    stays so under every sequence of events (choosing nothing in the file
    dialog keeps the previous file). *)
Theorem page_file_never_cleared (js : RA.Runtime) (events : list Page.Event) :
  forall r : Page.Run,
    RA.file (Page.page r) <> None ->
    RA.file (Page.page (Page.run js events r)) <> None.
Proof.
  induction events as [| e events IH]; intros r Hfile; [exact Hfile |].
  apply (IH (Page.step js e r)). apply page_step_keeps_file. exact Hfile.
Qed.

Lemma page_file_never_cleared_witness :
  let r := Page.step engine (Page.FileChange [cv]) Page.start in
  RA.file (Page.page r) <> None /\
  RA.file (Page.page (Page.run engine [Page.FileChange []; Page.ClickStart;
                                Page.Settle (RA.Rejects "Failed to fetch")] r))
    <> None.
Proof.
  intros r.
  assert (Hfile : RA.file (Page.page r) <> None) by discriminate.
  split; [exact Hfile |].
  apply (page_file_never_cleared engine _ r Hfile).
Defined.

(* ===================================================================== *)
(** * The timer of the page and the end of the request *)
(* ===================================================================== *)

(** X9.  Once [progress] has reached 95, the next firing of the timer held in
    [intervalRef] writes 95 and clears that timer, so that every later firing
    leaves the page as it is. *)
Theorem tick_stops_itself (id : nat) (rnd : Q) (st : RA.State) :
  RA.intervalRef st = Some id ->
  id ∈ RA.intervals st ->
  95 <= RA.progress st ->
  RA.progress (RA.tick id rnd st) = 95 /\
  (id ∉ RA.intervals (RA.tick id rnd st)) /\
  (forall rnd' : Q, RA.tick id rnd' (RA.tick id rnd st) = RA.tick id rnd st).
Proof.
  intros Href Hlive Hcap.
  assert (Hst' : RA.tick id rnd st = RA.setProgress 95 (RA.clearInterval (Some id) st)).
  { unfold RA.tick. destruct (decide (id ∈ RA.intervals st)); [| contradiction].
    apply Z.leb_le in Hcap. rewrite Hcap, Href. reflexivity. }
  assert (Hdead : id ∉ RA.intervals (RA.tick id rnd st)).
  { rewrite Hst'. cbn. intros Hin. apply elem_of_difference in Hin as [_ Hne].
    apply Hne. apply elem_of_singleton. reflexivity. }
  split; [rewrite Hst'; reflexivity |].
  split; [exact Hdead |].
  intros rnd'. unfold RA.tick at 1.
  destruct (decide (id ∈ RA.intervals (RA.tick id rnd st))); [contradiction | reflexivity].
Qed.

Lemma tick_stops_itself_witness :
  RA.intervalRef at_100 = Some 1%nat /\ 1%nat ∈ RA.intervals at_100 /\
  95 <= RA.progress at_100 /\
  RA.progress (RA.tick 1 (1 # 2) at_100) = 95 /\
  RA.tick 1 (9 # 10) (RA.tick 1 (1 # 2) at_100) = RA.tick 1 (1 # 2) at_100.
Proof.
  assert (Hlive : 1%nat ∈ RA.intervals at_100) by (vm_compute; reflexivity).
  assert (Hcap : 95 <= RA.progress at_100) by (vm_compute; discriminate).
  split; [reflexivity |]. split; [exact Hlive |]. split; [exact Hcap |].
  destruct (tick_stops_itself 1%nat (1 # 2) at_100 eq_refl Hlive Hcap)
    as (Hp & _ & Hstill).
  split; [exact Hp | apply Hstill].
Defined.

Lemma settled_intervals (js : RA.Runtime) (o : RA.FetchOutcome) (st : RA.State) :
  RA.intervals (RA.settled js o st) = cleared st.
Proof.
  unfold RA.settled, cleared. destruct (RA.try_block js o); cbn;
    destruct (RA.intervalRef st); reflexivity.
Qed.

(** X10.  Once the outcome of the request has been handled, whatever it is,
    a firing of the timer held in [intervalRef] changes nothing: [progress]
    stays at 100 after a success and at 0 after a failure. *)
Theorem settled_stops_timer (js : RA.Runtime) (o : RA.FetchOutcome) (id : nat)
    (rnd : Q) (st : RA.State) :
  RA.intervalRef st = Some id ->
  RA.tick id rnd (RA.settled js o st) = RA.settled js o st /\
  (RA.progress (RA.settled js o st) = 100 \/ RA.progress (RA.settled js o st) = 0).
Proof.
  intros Href. split.
  - unfold RA.tick.
    destruct (decide (id ∈ RA.intervals (RA.settled js o st))) as [Hin | Hout];
      [| reflexivity].
    rewrite settled_intervals in Hin.
    exfalso. exact (cleared_not_live st id Href Hin).
  - unfold RA.settled. destruct (RA.try_block js o); cbn; [right | left]; reflexivity.
Qed.

Lemma settled_stops_timer_witness :
  RA.intervalRef in_flight = Some 1%nat /\
  RA.tick 1 (9 # 10) (RA.settled engine model_unavailable in_flight)
    = RA.settled engine model_unavailable in_flight.
Proof.
  split; [reflexivity |].
  exact (proj1 (settled_stops_timer engine model_unavailable 1%nat (9 # 10) in_flight
                  eq_refl)).
Defined.



(* ===================================================================== *)
(** * formatFileSize: units and the number shown *)
(* ===================================================================== *)

Lemma pow_1024 (i : Z) : 0 <= i -> 1024 ^ i = 2 ^ (10 * i).
Proof. intros Hi. rewrite Z.pow_mul_r by lia. reflexivity. Qed.

Lemma unit_index_bounds (bytes : Z) :
  0 < bytes ->
  0 <= FU.unit_index bytes /\
  1024 ^ FU.unit_index bytes <= bytes < 1024 ^ (FU.unit_index bytes + 1).
Proof.
  intros Hpos. unfold FU.unit_index.
  pose proof (Z.log2_nonneg bytes) as Hlog.
  destruct (Z.log2_spec bytes Hpos) as [Hlo Hhi].
  set (L := Z.log2 bytes) in *.
  assert (Hi : 0 <= L / 10) by (apply Z.div_pos; lia).
  assert (Hdiv : 10 * (L / 10) <= L < 10 * (L / 10) + 10).
  { pose proof (Z.mul_div_le L 10 ltac:(lia)).
    pose proof (Z.mul_succ_div_gt L 10 ltac:(lia)). lia. }
  split; [exact Hi |].
  rewrite !pow_1024 by lia. split.
  - apply Z.le_trans with (2 ^ L); [| exact Hlo].
    apply Z.pow_le_mono_r; lia.
  - apply Z.lt_le_trans with (2 ^ Z.succ L); [exact Hhi |].
    apply Z.pow_le_mono_r; lia.
Qed.

Lemma unit_index_unique (bytes i : Z) :
  0 < bytes ->
  0 <= i ->
  1024 ^ i <= bytes < 1024 ^ (i + 1) ->
  FU.unit_index bytes = i.
Proof.
  intros Hpos Hi [Hlo' Hhi'].
  destruct (unit_index_bounds bytes Hpos) as (Hj & Hlo & Hhi).
  destruct (Z.lt_trichotomy (FU.unit_index bytes) i) as [Hlt | [Heq | Hgt]].
  - exfalso.
    assert (1024 ^ (FU.unit_index bytes + 1) <= 1024 ^ i)
      by (apply Z.pow_le_mono_r; lia).
    lia.
  - exact Heq.
  - exfalso.
    assert (1024 ^ (i + 1) <= 1024 ^ FU.unit_index bytes)
      by (apply Z.pow_le_mono_r; lia).
    lia.
Qed.

(** X12.  For a size below 1024^4 bytes, the range of the four unit names,
    the unit is chosen on a 1024 base: the index of the unit is [i] exactly
    when the size lies in [1024^i, 1024^(i+1)). *)
Theorem unit_index_spec (bytes i : Z) :
  0 < bytes ->
  bytes < 1024 ^ 4 ->
  0 <= i ->
  (FU.unit_index bytes = i <-> 1024 ^ i <= bytes < 1024 ^ (i + 1)).
Proof.
  intros Hpos Hsmall Hi. split.
  - intros <-. apply (unit_index_bounds bytes Hpos).
  - apply unit_index_unique; assumption.
Qed.

Lemma unit_index_spec_witness :
  0 < 1048575 /\ 1048575 < 1024 ^ 4 /\ 0 <= 1 /\
  (FU.unit_index 1048575 = 1 <-> 1024 ^ 1 <= 1048575 < 1024 ^ (1 + 1)).
Proof.
  split; [lia |]. split; [reflexivity |]. split; [lia |].
  apply (unit_index_spec 1048575 1); [lia | reflexivity | lia].
Defined.

(** X13.  A whole number [n] (1..1023) of units is shown without decimals:
    [n * 1024^i] bytes, for [i] up to 3, reads [n] followed by the name of the
    unit. *)
Theorem formatFileSize_whole_units (n i : Z) :
  1 <= n < 1024 ->
  0 <= i <= 3 ->
  exists unit : string,
    FU.sizes !! Z.to_nat i = Some unit /\
    FU.formatFileSize (n * 1024 ^ i) = show_Z n +:+ " " +:+ unit.
Proof.
  intros Hn Hi.
  assert (HK : 0 < 1024 ^ i) by (apply Z.pow_pos_nonneg; lia).
  assert (Hpos : 0 < n * 1024 ^ i) by (apply Z.mul_pos_pos; lia).
  assert (Hidx : FU.unit_index (n * 1024 ^ i) = i).
  { apply unit_index_unique; [exact Hpos | lia |].
    rewrite Z.pow_add_r by lia. change (1024 ^ 1) with 1024.
    split; [nia | nia]. }
  assert (Hfix : FU.toFixed_hundredths (n * 1024 ^ i) i = 100 * n).
  { unfold FU.toFixed_hundredths, FU.k.
    replace (200 * (n * 1024 ^ i) + 1024 ^ i) with ((200 * n + 1) * 1024 ^ i) by ring.
    rewrite Z.div_mul_cancel_r by lia.
    symmetry. apply Z.div_unique with 1; lia. }
  assert (Hshow : FU.show_hundredths (100 * n) = show_Z n).
  { unfold FU.show_hundredths.
    replace (100 * n) with (n * 100) by ring.
    rewrite Z.mod_mul by lia. rewrite Z.div_mul by lia. reflexivity. }
  assert (Hunit : exists unit, FU.sizes !! Z.to_nat i = Some unit).
  { assert (Hcases : i = 0 \/ i = 1 \/ i = 2 \/ i = 3) by lia.
    destruct Hcases as [-> | [-> | [-> | ->]]]; eexists; reflexivity. }
  destruct Hunit as [unit Hunit]. exists unit. split; [exact Hunit |].
  unfold FU.formatFileSize, FU.sizes_at.
  destruct (n * 1024 ^ i =? 0) eqn:H0; [apply Z.eqb_eq in H0; lia |].
  destruct (n * 1024 ^ i <? 0) eqn:Hneg; [apply Z.ltb_lt in Hneg; lia |].
  cbv zeta. rewrite Hidx, Hfix, Hshow, Hunit. reflexivity.
Qed.

Lemma formatFileSize_whole_units_witness :
  1 <= 15 < 1024 /\ 0 <= 2 <= 3 /\
  exists unit : string,
    FU.sizes !! Z.to_nat 2 = Some unit /\
    FU.formatFileSize (15 * 1024 ^ 2) = show_Z 15 +:+ " " +:+ unit.
Proof.
  split; [lia |]. split; [lia |].
  apply (formatFileSize_whole_units 15 2); lia.
Defined.

(** X14.  From 1024^4 bytes on there is no unit left: [sizes[i]] is read
    outside the array and the text ends in ["undefined"]. *)
Theorem formatFileSize_beyond_units (bytes : Z) :
  1024 ^ 4 <= bytes ->
  4 <= FU.unit_index bytes /\
  FU.sizes !! Z.to_nat (FU.unit_index bytes) = None /\
  FU.formatFileSize bytes =
    FU.show_hundredths (FU.toFixed_hundredths bytes (FU.unit_index bytes))
      +:+ " undefined".
Proof.
  intros Hbig.
  assert (Hpos : 0 < bytes).
  { apply Z.lt_le_trans with (1024 ^ 4); [reflexivity | exact Hbig]. }
  assert (Hidx : 4 <= FU.unit_index bytes).
  { unfold FU.unit_index.
    assert (Hlog : 40 <= Z.log2 bytes).
    { change 40 with (Z.log2 (1024 ^ 4)). apply Z.log2_le_mono. exact Hbig. }
    apply Z.div_le_lower_bound; lia. }
  assert (Hnone : FU.sizes !! Z.to_nat (FU.unit_index bytes) = None).
  { apply lookup_ge_None_2. cbn. lia. }
  split; [exact Hidx |]. split; [exact Hnone |].
  unfold FU.formatFileSize, FU.sizes_at.
  destruct (bytes =? 0) eqn:H0; [apply Z.eqb_eq in H0; lia |].
  destruct (bytes <? 0) eqn:Hneg; [apply Z.ltb_lt in Hneg; lia |].
  cbv zeta. rewrite Hnone. reflexivity.
Qed.

Lemma formatFileSize_beyond_units_witness :
  1024 ^ 4 <= 3 * 1024 ^ 4 /\
  FU.formatFileSize (3 * 1024 ^ 4) = "3 undefined".
Proof.
  assert (Hbig : 1024 ^ 4 <= 3 * 1024 ^ 4) by (vm_compute; discriminate).
  split; [exact Hbig |].
  destruct (formatFileSize_beyond_units (3 * 1024 ^ 4) Hbig) as (_ & _ & Htext).
  rewrite Htext. reflexivity.
Defined.

(** X15.  For a positive size the number shown lies between 1 and 1024
    inclusive (between 100 and 102400 hundredths): rounding can reach the
    1024 of the unit, as for the 1048575 bytes shown as ["1024 KB"]. *)
Theorem formatFileSize_number_range (bytes : Z) :
  0 < bytes ->
  100 <= FU.toFixed_hundredths bytes (FU.unit_index bytes) <= 102400.
Proof.
  intros Hpos. destruct (unit_index_bounds bytes Hpos) as (Hi & Hlo & Hhi).
  unfold FU.toFixed_hundredths, FU.k.
  rewrite Z.pow_add_r in Hhi by lia. change (1024 ^ 1) with 1024 in Hhi.
  set (K := 1024 ^ FU.unit_index bytes) in *.
  assert (HK : 0 < K) by (apply Z.pow_pos_nonneg; lia).
  split.
  - apply Z.div_le_lower_bound; lia.
  - apply Z.lt_succ_r. apply Z.div_lt_upper_bound; lia.
Qed.

Lemma formatFileSize_number_range_witness :
  0 < 1048575 /\
  100 <= FU.toFixed_hundredths 1048575 (FU.unit_index 1048575) <= 102400 /\
  FU.formatFileSize 1048575 = "1024 KB".
Proof.
  split; [lia |].
  split; [apply (formatFileSize_number_range 1048575); lia | reflexivity].
Defined.

Lemma tick_monotone_up_to_cap_witness :
  is_random (9 # 10) /\ RA.progress at_94 <= 95 /\
  RA.progress at_94 <= RA.progress (RA.tick 1 (9 # 10) at_94).
Proof.
  assert (Hrnd : is_random (9 # 10)) by (split; [discriminate | reflexivity]).
  assert (Hp : RA.progress at_94 <= 95) by (vm_compute; discriminate).
  split; [exact Hrnd |]. split; [exact Hp |].
  apply (tick_monotone_up_to_cap 1%nat (9 # 10) at_94 Hrnd Hp).
Defined.

(* ===================================================================== *)
(** * What the UI keeps out of reach *)
(* ===================================================================== *)

Lemma page_step_alerts (js : RA.Runtime) (e : Page.Event) (r : Page.Run) :
  Forall (fun a : string => exists msg : string, a = "Error: " +:+ msg)
    (RA.alerts (Page.page r)) ->
  Forall (fun a : string => exists msg : string, a = "Error: " +:+ msg)
    (RA.alerts (Page.page (Page.step js e r))).
Proof.
  intros Hall. destruct e as [files | | id rnd | o |]; unfold Page.step.
  - destruct files as [| f files]; exact Hall.
  - cbn. unfold RA.clickStart, RA.button_disabled.
    destruct (RA.isAnalyzing (Page.page r)); [exact Hall |].
    destruct (RA.file (Page.page r)) as [f |] eqn:Hf; [| exact Hall].
    cbn. unfold RA.startAnalysis. rewrite Hf. exact Hall.
  - cbn. unfold RA.tick. destruct (decide (id ∈ RA.intervals (Page.page r)));
      [| exact Hall].
    destruct (95 <=? RA.progress (Page.page r)); exact Hall.
  - destruct (Page.answered r <? length (RA.requests (Page.page r)))%nat;
      [| exact Hall].
    cbn. unfold RA.settled. destruct (RA.try_block js o) as [msg | data]; cbn;
      [| exact Hall].
    apply Forall_app. split; [exact Hall |].
    constructor; [exists msg; reflexivity | constructor].
  - cbn. unfold RA.timeout_fires. destruct (RA.timeouts (Page.page r)); exact Hall.
Qed.

(** X17.  Through the UI the alert ["Please upload a resume first."] is never
    shown: without a file the button is disabled, so [startAnalysis] is not
    called.  Every alert of a session is the report of a failed request,
    ["Error: "] followed by the message of the error. *)
Theorem page_alerts_are_errors (js : RA.Runtime) (events : list Page.Event) :
  forall r : Page.Run,
    Forall (fun a : string => exists msg : string, a = "Error: " +:+ msg)
      (RA.alerts (Page.page r)) ->
    Forall (fun a : string => exists msg : string, a = "Error: " +:+ msg)
      (RA.alerts (Page.page (Page.run js events r))) /\
    ~ In "Please upload a resume first." (RA.alerts (Page.page (Page.run js events r))).
Proof.
  induction events as [| e events IH]; intros r Hall.
  - split; [exact Hall |]. cbn. intros Hin.
    rewrite Forall_forall in Hall.
    apply list_elem_of_In in Hin. destruct (Hall _ Hin) as [msg Hmsg].
    discriminate Hmsg.
  - apply (IH (Page.step js e r)). apply page_step_alerts. exact Hall.
Qed.

Lemma page_alerts_are_errors_witness :
  let events := [Page.ClickStart; Page.FileChange [cv]; Page.ClickStart;
                 Page.Settle (RA.Rejects "Failed to fetch")] in
  Forall (fun a : string => exists msg : string, a = "Error: " +:+ msg)
    (RA.alerts (Page.page Page.start)) /\
  RA.alerts (Page.page (Page.run engine events Page.start)) = ["Error: Failed to fetch"] /\
  ~ In "Please upload a resume first."
      (RA.alerts (Page.page (Page.run engine events Page.start))).
Proof.
  intros events.
  assert (Hnone : Forall (fun a : string => exists msg : string, a = "Error: " +:+ msg)
                    (RA.alerts (Page.page Page.start))) by constructor.
  split; [exact Hnone |]. split; [reflexivity |].
  exact (proj2 (page_alerts_are_errors engine events Page.start Hnone)).
Defined.

(** X18.  A widget mounted with [disabled] never leaves its initial state:
    nothing can be dropped, no timer exists and there is nothing to remove. *)
Theorem widget_disabled_is_inert (Number_toString : Q -> string)
    (props : FU.FileUploadProps) (events : list Widget.Event) :
  FU.disabled props = true ->
  Widget.run Number_toString props events FU.init = FU.init.
Proof.
  intros Hoff. induction events as [| e events IH]; [reflexivity |].
  cbn. replace (Widget.step Number_toString props e FU.init) with FU.init;
    [exact IH |].
  destruct e as [acceptedFiles rejectedFiles | id rnd |]; cbn.
  - unfold FU.drop. cbn. rewrite Hoff. reflexivity.
  - reflexivity.
  - reflexivity.
Qed.

Lemma widget_disabled_is_inert_witness :
  let props := FU.mkProps (10 * 1024 * 1024) [".pdf"] true in
  FU.disabled props = true /\
  Widget.run show_integral props widget_session FU.init = FU.init.
Proof.
  intros props. split; [reflexivity |].
  apply (widget_disabled_is_inert show_integral props widget_session). reflexivity.
Defined.
